(** * pygame_wrapper: game components over pymunk and pygame

    A shallow embedding of [src/components/game_components.py].

    Python objects live in a heap indexed by object identity; the
    constructors and methods of the component classes are state-passing
    functions over a [World] (heap, the pymunk space, the state of the
    [random] module) that either return a value or raise.

    Numbers are Python numbers: arbitrary-precision [int]s and binary64
    [float]s.  Everything handed to pymunk is stored as a C double. *)

From Stdlib Require Import ZArith Floats Lia Bool.
From stdpp Require Import base option list gmap strings.

Local Open Scope Z_scope.

(** ** Python numbers *)

Inductive number :=
| Int (z : Z)
| Float (f : float).

(** The nearest binary64 to an integer (ties to even).  CPython raises
    [OverflowError] for an [int] beyond the binary64 range; here the
    conversion saturates to an infinity there. *)
Definition Z2F (z : Z) : float := SF2Prim (binary_normalize prec emax z 0 false).

Definition to_float (n : number) : float :=
  match n with
  | Int z => Z2F z
  | Float f => f
  end.

(** Binary arithmetic: [int op int] stays an [int], anything else is
    computed on doubles after converting the [int] operand. *)
Definition py_arith (fz : Z → Z → Z) (ff : float → float → float)
    (a b : number) : number :=
  match a, b with
  | Int x, Int y => Int (fz x y)
  | _, _ => Float (ff (to_float a) (to_float b))
  end.

Definition py_add : number → number → number := py_arith Z.add PrimFloat.add.
Definition py_sub : number → number → number := py_arith Z.sub PrimFloat.sub.
Definition py_mul : number → number → number := py_arith Z.mul PrimFloat.mul.

Definition py_neg (a : number) : number :=
  match a with
  | Int x => Int (- x)
  | Float f => Float (- f)%float
  end.

(** An integer as an unrounded significand, for the correctly rounded
    quotient of two [int]s. *)
Definition Z2SF (z : Z) : spec_float :=
  match z with
  | Z0 => S754_zero false
  | Zpos p => S754_finite false p 0
  | Zneg p => S754_finite true p 0
  end.

(** [a / b] for a non-zero divisor: always a [float]. *)
Definition true_div (a b : number) : number :=
  match a, b with
  | Int x, Int y => Float (SF2Prim (SFdiv prec emax (Z2SF x) (Z2SF y)))
  | _, _ => Float (to_float a / to_float b)%float
  end.

Definition is_zero_number (a : number) : bool :=
  match a with
  | Int x => Z.eqb x 0
  | Float f => PrimFloat.eqb f 0%float
  end.

(** [a // b] for a non-zero divisor; on doubles it is the C library's. *)
Definition floor_div (fdiv : float → float → float) (a b : number) : number :=
  match a, b with
  | Int x, Int y => Int (x / y)
  | _, _ => Float (fdiv (to_float a) (to_float b))
  end.

(** ** Exceptions and outcomes *)

Inductive exn :=
| AssertionError (msg : string)
| AttributeError
| ZeroDivisionError
| ValueError
| OverflowError
| TypeError
| Exception (msg : string)
| CallbackError (code : nat).

Inductive outcome (A : Type) :=
| Return (a : A)
| Raise (e : exn).
Arguments Return {A} a.
Arguments Raise {A} e.

Definition py_truediv (a b : number) : outcome number :=
  if is_zero_number b then Raise ZeroDivisionError else Return (true_div a b).

(** [int(x)] on a float: truncation toward zero. *)
Definition py_int (x : float) : outcome Z :=
  match Prim2SF x with
  | S754_nan => Raise ValueError
  | S754_infinity _ => Raise OverflowError
  | S754_zero _ => Return 0
  | S754_finite s m e =>
      let v := Z.shiftl (Zpos m) e in
      Return (if s then - v else v)
  end.

(** [math.pi], and the factors CPython's [math.radians] and
    [math.degrees] multiply by. *)
Definition math_pi : float := 0x1.921fb54442d18p+1%float.
Definition radToDeg : float := (180 / math_pi)%float.
Definition math_degrees (x : float) : float := (x * radToDeg)%float.

(** ** Module constants of game_components.py *)

Definition Color : Type := list Z.

Definition BALL_COLOR : Color := [220; 40; 40].
Definition BALL_EDGE_COLOR : Color := [120; 0; 0].
Definition BALL_HIGHLIGHT_COLOR : Color := [255; 255; 255; 60].

Definition CRATE_SIZE_MULTIPLIER : number := Int 10.

(** Decimal literals denote the nearest double, as they do in Python. *)
#[local] Set Warnings "-inexact-float".

Definition LEVER_LEFT_RATIO : number := Float 0.4.
Definition LEVER_RIGHT_RATIO : number := Float 0.6.
Definition LEVER_COLLISION_TYPE : Z := 2.

(** ** The heap: pymunk and pygame objects *)

Definition Vec2d : Type := float * float.

Definition vec (p : number * number) : Vec2d := (to_float p.1, to_float p.2).

Inductive BodyType := DYNAMIC | KINEMATIC | STATIC.

Record Body := mkBody {
  body_type : BodyType;
  body_mass : float;
  body_moment : float;
  body_position : Vec2d;
  body_angle : float;
  body_angular_velocity : float;
}.

(** [pymunk.Body(mass, moment)] and [pymunk.Body(body_type=STATIC)]. *)
Definition new_body (ty : BodyType) (mass moment : float) : Body :=
  mkBody ty mass moment (0, 0)%float 0%float 0%float.

Inductive Geometry :=
| Circle (radius : float)
| Segment (a b : Vec2d) (radius : float)
| Box (size : Vec2d).

Record Shape := mkShape {
  shape_body : nat;
  shape_geometry : Geometry;
  shape_friction : float;
  shape_elasticity : float;
  shape_density : float;
  shape_sensor : bool;
  shape_collision_type : Z;
}.

Definition new_shape (body : nat) (g : Geometry) : Shape :=
  mkShape body g 0%float 0%float 0%float false 0.

Inductive Constraint :=
| PivotJoint (a b : nat) (pivot : Vec2d)
| PinJoint (a b : nat) (anchor_a anchor_b : Vec2d)
| RotaryLimitJoint (a b : nat) (min max : float).

(** A pygame surface, as the history of the calls that painted it. *)
Inductive Surface :=
| Surface_new (size : number * number) (srcalpha : bool)
| transform_rotate (src : Surface) (angle : float)
| draw_circle (dst : Surface) (color : Color) (center : number * number)
    (radius : number) (width : number)
| draw_line (dst : Surface) (color : Color) (start_pos end_pos : Vec2d)
    (width : number)
| blit (dst src rect_of : Surface) (rect_center : Z * Z).

(** [surf.get_rect(center=c)]: the rectangle of [surf]'s size around [c]. *)
Record Rect := mkRect { rect_of : Surface; rect_center : Z * Z }.

Inductive Object :=
| OBody (b : Body)
| OShape (s : Shape)
| OConstraint (c : Constraint)
| OSurface (s : Surface).

(** ** The Trigger object and the pymunk space *)

(** A Python callable handed in by the application; what calling it does
    is given by [Callbacks] below. *)
Record Callable := PyFunction { func_id : nat }.

(** Contact data the engine hands to a handler; opaque to this layer. *)
Record Arbiter := mkArbiter { arbiter_id : nat }.
Record Data := mkData { data_id : nat }.

Record Trigger := mkTrigger {
  trigger_position : number * number;
  trigger_width : number;
  trigger_height : number;
  trigger_on_trigger : option Callable;
  trigger_body : nat;
  trigger_shape : nat;
}.

(** The one [pymunk.Space] of the application.  [handlers] maps a pair of
    collision types to the bound method [self._handle_collision] registered
    as its [begin] callback, kept as its [self]. *)
Record Space := mkSpace {
  static_body : nat;
  bodies : gset nat;
  shapes : gset nat;
  constraints : gset nat;
  handlers : gmap (Z * Z) Trigger;
  locked : bool;
  add_later : gset nat;
  remove_later : gset nat;
}.

Record World := mkWorld {
  heap : gmap nat Object;
  space : Space;
  random_state : nat;
}.

Definition set_heap (f : gmap nat Object → gmap nat Object) (w : World) : World :=
  mkWorld (f (heap w)) (space w) (random_state w).
Definition set_space (f : Space → Space) (w : World) : World :=
  mkWorld (heap w) (f (space w)) (random_state w).

Definition set_bodies (f : gset nat → gset nat) (s : Space) : Space :=
  mkSpace (static_body s) (f (bodies s)) (shapes s) (constraints s)
    (handlers s) (locked s) (add_later s) (remove_later s).
Definition set_shapes (f : gset nat → gset nat) (s : Space) : Space :=
  mkSpace (static_body s) (bodies s) (f (shapes s)) (constraints s)
    (handlers s) (locked s) (add_later s) (remove_later s).
Definition set_constraints (f : gset nat → gset nat) (s : Space) : Space :=
  mkSpace (static_body s) (bodies s) (shapes s) (f (constraints s))
    (handlers s) (locked s) (add_later s) (remove_later s).
Definition set_handlers (f : gmap (Z * Z) Trigger → gmap (Z * Z) Trigger)
    (s : Space) : Space :=
  mkSpace (static_body s) (bodies s) (shapes s) (constraints s)
    (f (handlers s)) (locked s) (add_later s) (remove_later s).
Definition set_locked (b : bool) (s : Space) : Space :=
  mkSpace (static_body s) (bodies s) (shapes s) (constraints s)
    (handlers s) b (add_later s) (remove_later s).
Definition set_add_later (f : gset nat → gset nat) (s : Space) : Space :=
  mkSpace (static_body s) (bodies s) (shapes s) (constraints s)
    (handlers s) (locked s) (f (add_later s)) (remove_later s).
Definition set_remove_later (f : gset nat → gset nat) (s : Space) : Space :=
  mkSpace (static_body s) (bodies s) (shapes s) (constraints s)
    (handlers s) (locked s) (add_later s) (f (remove_later s)).

(** Identities in use: a new object differs from all of them. *)
Definition used (w : World) : gset nat :=
  dom (heap w) ∪ {[ static_body (space w) ]} ∪ bodies (space w)
  ∪ shapes (space w) ∪ constraints (space w)
  ∪ add_later (space w) ∪ remove_later (space w).

(** A fresh space: [pymunk.Space()] owns its static body, which is not
    listed among [space.bodies]. *)
Definition empty_world : World :=
  mkWorld {[ 0%nat := OBody (new_body STATIC 0 0) ]}
    (mkSpace 0%nat ∅ ∅ ∅ ∅ false ∅ ∅) 0%nat.

(** ** The state-and-exception monad *)

Definition M (A : Type) : Type := World → outcome A * World.

#[export] Instance M_ret : MRet M := λ A a w, (Return a, w).
#[export] Instance M_bind : MBind M := λ A B f m w,
  match m w with
  | (Return a, w') => f a w'
  | (Raise e, w') => (Raise e, w')
  end.

Definition raise {A} (e : exn) : M A := λ w, (Raise e, w).
Definition lift {A} (o : outcome A) : M A := λ w, (o, w).
Definition gets {A} (f : World → A) : M A := λ w, (Return (f w), w).
Definition modify (f : World → World) : M unit := λ w, (Return tt, f w).
Definition assert (b : bool) (msg : string) : M unit :=
  if b then mret tt else raise (AssertionError msg).

Fixpoint for_each {A} (l : list A) (f : A → M unit) : M unit :=
  match l with
  | [] => mret tt
  | x :: l' => f x ;; for_each l' f
  end.

(** Object creation and attribute access. *)
Definition alloc (o : Object) : M nat := λ w,
  let i := fresh (used w) in (Return i, set_heap <[i := o]> w).

Definition get_body (i : nat) : M Body :=
  o ← gets (λ w, heap w !! i);
  match o with Some (OBody b) => mret b | _ => raise AttributeError end.
Definition get_shape (i : nat) : M Shape :=
  o ← gets (λ w, heap w !! i);
  match o with Some (OShape s) => mret s | _ => raise AttributeError end.
Definition get_surface (i : nat) : M Surface :=
  o ← gets (λ w, heap w !! i);
  match o with Some (OSurface s) => mret s | _ => raise AttributeError end.

Definition update_body (i : nat) (f : Body → Body) : M unit :=
  b ← get_body i; modify (set_heap <[i := OBody (f b)]>).
Definition update_shape (i : nat) (f : Shape → Shape) : M unit :=
  s ← get_shape i; modify (set_heap <[i := OShape (f s)]>).
Definition update_surface (i : nat) (f : Surface → Surface) : M unit :=
  s ← get_surface i; modify (set_heap <[i := OSurface (f s)]>).

Definition with_position (p : Vec2d) (b : Body) : Body :=
  mkBody (body_type b) (body_mass b) (body_moment b) p (body_angle b)
    (body_angular_velocity b).
Definition with_angle (a : float) (b : Body) : Body :=
  mkBody (body_type b) (body_mass b) (body_moment b) (body_position b) a
    (body_angular_velocity b).
Definition with_angular_velocity (v : float) (b : Body) : Body :=
  mkBody (body_type b) (body_mass b) (body_moment b) (body_position b)
    (body_angle b) v.

Definition with_friction (x : float) (s : Shape) : Shape :=
  mkShape (shape_body s) (shape_geometry s) x (shape_elasticity s)
    (shape_density s) (shape_sensor s) (shape_collision_type s).
Definition with_elasticity (x : float) (s : Shape) : Shape :=
  mkShape (shape_body s) (shape_geometry s) (shape_friction s) x
    (shape_density s) (shape_sensor s) (shape_collision_type s).
Definition with_sensor (x : bool) (s : Shape) : Shape :=
  mkShape (shape_body s) (shape_geometry s) (shape_friction s)
    (shape_elasticity s) (shape_density s) x (shape_collision_type s).
Definition with_collision_type (x : Z) (s : Shape) : Shape :=
  mkShape (shape_body s) (shape_geometry s) (shape_friction s)
    (shape_elasticity s) (shape_density s) (shape_sensor s) x.

(** ** pymunk.Space: add, remove, on_collision, and the step's lock *)

Definition _add_body (b : nat) : M unit :=
  sp ← gets space;
  assert (bool_decide (b ∉ bodies sp)) "Body already added to this space." ;;
  modify (set_space (set_bodies (union {[ b ]}))).

Definition _add_shape (i : nat) (s : Shape) : M unit :=
  sp ← gets space;
  assert (bool_decide (i ∉ shapes sp)) "Shape already added to space." ;;
  assert (bool_decide (shape_body s ∈ bodies sp ∨ shape_body s = static_body sp))
    "The shape's body must be added to the space before (or at the same time) as the shape." ;;
  modify (set_space (set_shapes (union {[ i ]}))).

Definition _add_constraint (c : nat) : M unit :=
  sp ← gets space;
  assert (bool_decide (c ∉ constraints sp)) "Constraint already added to space." ;;
  modify (set_space (set_constraints (union {[ c ]}))).

(** [space.add(o1, o2, ...)]: queued while the space is stepping; otherwise the
    bodies go in first, then shapes and constraints in argument order. *)
Definition space_add (objs : list nat) : M unit :=
  sp ← gets space;
  if locked sp then
    modify (set_space (set_add_later (union (list_to_set objs))))
  else
    for_each objs (λ o,
      x ← gets (λ w, heap w !! o);
      match x with Some (OBody _) => _add_body o | _ => mret tt end) ;;
    for_each objs (λ o,
      x ← gets (λ w, heap w !! o);
      match x with
      | Some (OBody _) => mret tt
      | Some (OShape s) => _add_shape o s
      | Some (OConstraint _) => _add_constraint o
      | _ => raise (Exception "Unsupported type")
      end).

Definition _remove_body (b : nat) : M unit :=
  sp ← gets space;
  assert (bool_decide (b ∈ bodies sp)) "body not in space, already removed?" ;;
  modify (set_space (set_bodies (λ s, s ∖ {[ b ]}))).

Definition _remove_shape (i : nat) : M unit :=
  sp ← gets space;
  assert (bool_decide (i ∈ shapes sp)) "shape not in space, already removed?" ;;
  modify (set_space (set_shapes (λ s, s ∖ {[ i ]}))).

Definition _remove_constraint (c : nat) : M unit :=
  sp ← gets space;
  assert (bool_decide (c ∈ constraints sp))
    "constraint not in space, already removed?" ;;
  modify (set_space (set_constraints (λ s, s ∖ {[ c ]}))).

(** [space.remove(o1, o2, ...)]: queued until the end of the step while the space
    is stepping; otherwise each object is removed in turn, and one that is
    not in the space fails pymunk's membership assertion. *)
Definition space_remove (objs : list nat) : M unit :=
  sp ← gets space;
  if locked sp then
    modify (set_space (set_remove_later (union (list_to_set objs))))
  else
    for_each objs (λ o,
      x ← gets (λ w, heap w !! o);
      match x with
      | Some (OBody _) => _remove_body o
      | Some (OShape _) => _remove_shape o
      | Some (OConstraint _) => _remove_constraint o
      | _ => raise (Exception "Unsupported type")
      end).

(** [space.on_collision(a, b, begin=h)]. *)
Definition space_on_collision (a b : Z) (h : Trigger) : M unit :=
  modify (set_space (set_handlers <[(a, b) := h]>)).

(** What [space.step] does around the engine's own work: the space is
    locked while contacts are processed, and the queued additions and
    removals are carried out once it is unlocked again.  When a queued
    removal fails, the step raises with the space unlocked; how much of the
    queue is then left depends on pymunk's version, and no property below
    says what it holds after such a failure. *)
Definition space_begin_step : M unit := modify (set_space (set_locked true)).

Definition space_end_step : M unit :=
  modify (set_space (set_locked false)) ;;
  later ← gets (λ w, elements (add_later (space w)));
  space_add later ;;
  modify (set_space (set_add_later (λ _, ∅))) ;;
  later ← gets (λ w, elements (remove_later (space w)));
  for_each later (λ o, space_remove [o]) ;;
  modify (set_space (set_remove_later (λ _, ∅))).



(** ** External functions *)

(** pymunk's moment-of-inertia helpers and the C library's floor division
    of doubles: library code whose values no property below depends on. *)
Class Externals := {
  moment_for_circle : number → number → number → float;
  moment_for_segment : number → number * number → number * number → number → float;
  moment_for_box : number → number * number → float;
  float_floordiv : float → float → float;
}.

(** [math.cos], [math.sin] and the stream of values [random.random()]
    returns, which only the projectile's texture uses. *)
Class Libm := {
  math_cos : float → float;
  math_sin : float → float;
  random_random : nat → float;
}.

(** What calling an application callable does: any change of the world,
    ended by a return or an exception. *)
Class Callbacks := { call : Callable → Arbiter → Data → M unit }.

(** ** class Trigger *)

Section Trigger.
Context `{Callbacks}.

(** [Trigger.remove]: no check of its own before [space.remove]. *)
Definition Trigger_remove (self : Trigger) : M unit :=
  space_remove [trigger_body self; trigger_shape self].

(** [Trigger._handle_collision]: the value returned is Python's [False]. *)
Definition Trigger_handle_collision (self : Trigger) (arbiter : Arbiter)
    (data : Data) : M bool :=
  match trigger_on_trigger self with
  | Some on_trigger => call on_trigger arbiter data
  | None => mret tt
  end ;;
  Trigger_remove self ;;
  mret false.

(** The engine reporting the beginning of a contact between shapes of
    collision types [a] and [b]: the handler registered for the pair, if
    any, runs. *)
Definition fire_begin (a b : Z) (arbiter : Arbiter) (data : Data)
    : M (option bool) :=
  h ← gets (λ w, handlers (space w) !! (a, b));
  match h with
  | Some self => r ← Trigger_handle_collision self arbiter data; mret (Some r)
  | None => mret None
  end.
End Trigger.

(** [Trigger.__init__(space, position, width=40, height=20, on_trigger=None)] *)
Definition Trigger_init (position : number * number) (width height : number)
    (on_trigger : option Callable) : M Trigger :=
  half_w ← lift (py_truediv width (Int 2));
  let center_x := py_add position.1 half_w in
  half_h ← lift (py_truediv height (Int 2));
  let center_y := py_add position.2 half_h in
  body ← alloc (OBody (new_body STATIC 0 0));
  update_body body (with_position (vec (center_x, center_y))) ;;
  shape ← alloc (OShape (new_shape body (Box (vec (width, height)))));
  update_shape shape (with_sensor true) ;;
  update_shape shape (with_collision_type 99) ;;
  let self := mkTrigger position width height on_trigger body shape in
  space_add [body; shape] ;;
  space_on_collision 1 99 self ;;
  mret self.

Definition Trigger_default_width : number := Int 40.
Definition Trigger_default_height : number := Int 20.

(** ** The component classes *)

Record Ball := mkBall {
  ball_body : nat;
  ball_shape : nat;
  ball_radius : number;
  ball_image : nat;
}.

Record Crate := mkCrate {
  crate_mass : number;
  crate_size : number;
  crate_body : nat;
  crate_shape : nat;
}.

Record CatapultArm := mkCatapultArm {
  arm_body : nat;
  arm_shape : nat;
  stopper_shape : nat;
  stopper_shape2 : nat;
}.

Record Catapult := mkCatapult {
  catapult_pivot : number * number;
  catapult_stick_length : number;
  catapult_stick_thickness : number;
  catapult_mass : number;
  catapult_base_w : number;
  catapult_base_h : number;
  catapult_moment : float;
  catapult_arm : option CatapultArm;
}.

Record Lever := mkLever {
  lever_length : number;
  lever_thickness : number;
  lever_mass : number;
  lever_pivot_point : number * number;
  lever_load : Crate;
  lever_effort : Crate;
  lever_body : nat;
  lever_shape : nat;
  lever_holder_shapes : list nat;
  lever_holder_shape : nat;
  lever_holder_shape2 : nat;
  lever_holder_shape3 : nat;
  lever_holder_shape4 : nat;
}.

Record Projectile := mkProjectile {
  projectile_x : number;
  projectile_y : number;
  projectile_radius : number;
  projectile_mass : number;
  projectile_on_ground : bool;
  projectile_body : nat;
  projectile_shape : nat;
  projectile_image : nat;
}.


(** [pygame.draw.circle] and [pygame.draw.line] paint on the surface they
    are given; [pygame.transform.rotate] returns a new surface. *)
Definition pygame_draw_circle (surface : nat) (color : Color)
    (center : number * number) (radius width : number) : M unit :=
  update_surface surface (λ s, draw_circle s color center radius width).

Definition pygame_draw_line (surface : nat) (color : Color)
    (start_pos end_pos : Vec2d) (width : number) : M unit :=
  update_surface surface (λ s, draw_line s color start_pos end_pos width).

Definition pygame_transform_rotate (surface : nat) (angle : float) : M nat :=
  s ← get_surface surface;
  alloc (OSurface (transform_rotate s angle)).

(** [surf.get_rect(center=c)].  pygame reads the two coordinates of [c] as
    C ints and raises TypeError when one of them does not fit. *)
Definition fits_c_int (z : Z) : bool := (- 2 ^ 31 <=? z) && (z <? 2 ^ 31).

Definition get_rect (surface : nat) (center : Z * Z) : M Rect :=
  s ← get_surface surface;
  if fits_c_int center.1 && fits_c_int center.2
  then mret (mkRect s center)
  else raise TypeError.

Definition surface_blit (dest source : nat) (r : Rect) : M unit :=
  src ← get_surface source;
  update_surface dest (λ d, blit d src (rect_of r) (rect_center r)).

(** The shared body of [Ball.draw] and [Projectile.draw]. *)
Definition draw_rotated (body image surface : nat) : M unit :=
  b ← get_body body;
  let angle_degrees := math_degrees (body_angle b) in
  rotated_image ← pygame_transform_rotate image (- angle_degrees)%float;
  cx ← lift (py_int (body_position b).1);
  cy ← lift (py_int (body_position b).2);
  rect ← get_rect rotated_image (cx, cy);
  surface_blit surface rotated_image rect.

Definition Ball_draw (self : Ball) (surface : nat) : M unit :=
  draw_rotated (ball_body self) (ball_image self) surface.

Definition Projectile_draw (self : Projectile) (surface : nat) : M unit :=
  draw_rotated (projectile_body self) (projectile_image self) surface.

(** [pymunk.Segment(body, a, b, radius)] *)
Definition new_segment (body : nat) (a b : number * number) (radius : number)
    : M nat :=
  alloc (OShape (new_shape body (Segment (vec a) (vec b) (to_float radius)))).

Section Components.
Context `{Externals} `{Libm}.



(** [Ball.__init__(space, x, y, radius=15)].  [pygame.Surface] is taken to
    return the surface it is asked for; pygame refuses a negative size
    (pygame.error), which for a negative radius happens after the body and
    the shape have been given to the space. *)
Definition Ball_init (x y radius : number) : M Ball :=
  let mass := Int 10 in
  let moment := moment_for_circle mass (Int 0) radius in
  body ← alloc (OBody (new_body DYNAMIC (to_float mass) moment));
  update_body body (with_position (vec (x, y))) ;;
  shape ← alloc (OShape (new_shape body (Circle (to_float radius))));
  update_shape shape (with_elasticity 1.0) ;;
  update_shape shape (with_friction 0.5) ;;
  update_shape shape (with_collision_type 1) ;;
  space_add [body; shape] ;;
  image ← alloc (OSurface
    (Surface_new (py_mul radius (Int 2), py_mul radius (Int 2)) true));
  let center := (radius, radius) in
  pygame_draw_circle image BALL_COLOR center radius (Int 0) ;;
  pygame_draw_circle image BALL_EDGE_COLOR center radius (Int 2) ;;
  pygame_draw_circle image BALL_HIGHLIGHT_COLOR
    (py_sub radius (Int 4), py_sub radius (Int 4))
    (floor_div float_floordiv radius (Int 3)) (Int 0) ;;
  mret (mkBall body shape radius image).

(** [Catapult.create_arm] *)
Definition Catapult_create_arm (self : Catapult) : M Catapult :=
  let stick_length := catapult_stick_length self in
  let stick_thickness := catapult_stick_thickness self in
  arm_body ← alloc (OBody (new_body DYNAMIC
    (to_float (catapult_mass self)) (catapult_moment self)));
  update_body arm_body (with_position (vec (catapult_pivot self))) ;;
  update_body arm_body (with_angular_velocity 46) ;;
  arm_shape ← new_segment arm_body (Int 0, Int 0)
    (py_neg stick_length, Int 0) stick_thickness;
  update_shape arm_shape (with_friction 0.8) ;;
  stopper_shape ← new_segment arm_body
    (py_neg stick_length, Int 0)
    (py_sub (py_neg stick_length) (Int 15), Int (-25))
    stick_thickness;
  update_shape stopper_shape (with_friction 0.5) ;;
  update_shape stopper_shape (with_elasticity 0.2) ;;
  stopper_shape2 ← new_segment arm_body
    (py_add (py_neg stick_length) (Int 20), Int 0)
    (py_add (py_neg stick_length) (Int 35), Int (-25))
    stick_thickness;
  update_shape stopper_shape2 (with_friction 0.5) ;;
  update_shape stopper_shape2 (with_elasticity 0.2) ;;
  space_add [arm_body; arm_shape; stopper_shape; stopper_shape2] ;;
  sb ← gets (λ w, static_body (space w));
  joint ← alloc (OConstraint
    (PivotJoint arm_body sb (vec (catapult_pivot self))));
  space_add [joint] ;;
  mret (mkCatapult (catapult_pivot self) stick_length stick_thickness
    (catapult_mass self) (catapult_base_w self) (catapult_base_h self)
    (catapult_moment self)
    (Some (mkCatapultArm arm_body arm_shape stopper_shape stopper_shape2))).

(** [Catapult.__init__(space, pivot, stick_length=150, stick_thickness=5)] *)
Definition Catapult_init (pivot : number * number)
    (stick_length stick_thickness : number) : M Catapult :=
  let mass := Int 500 in
  let moment := moment_for_segment mass (Int 0, Int 0)
    (py_neg stick_length, Int 0) stick_thickness in
  Catapult_create_arm
    (mkCatapult pivot stick_length stick_thickness mass (Int 80) (Int 20)
       moment None).

(** [Crate.__init__(space, position, mass=1)] *)
Definition Crate_init (position : number * number) (mass : number) : M Crate :=
  let size := py_mul mass CRATE_SIZE_MULTIPLIER in
  let moment := moment_for_box mass (py_mul size (Int 2), py_mul size (Int 2)) in
  body ← alloc (OBody (new_body DYNAMIC (to_float mass) moment));
  update_body body (with_position (vec position)) ;;
  shape ← alloc (OShape (new_shape body
    (Box (vec (py_mul size (Int 2), py_mul size (Int 2))))));
  update_shape shape (with_elasticity 0.6) ;;
  update_shape shape (with_friction 0.8) ;;
  space_add [body; shape] ;;
  mret (mkCrate mass size body shape).

(** [Lever.__init__(space, pivot_point, length, thickness, load, effort,
    mass=10.0)] *)
Definition Lever_init (pivot_point : number * number)
    (length thickness : number) (load effort : Crate) (mass : number)
    : M Lever :=
  let left_length := py_mul length LEVER_LEFT_RATIO in
  let right_length := py_mul length LEVER_RIGHT_RATIO in
  let moment := moment_for_segment mass (py_neg left_length, Int 0)
    (right_length, Int 0) thickness in
  body ← alloc (OBody (new_body DYNAMIC (to_float mass) moment));
  update_body body (with_position (vec pivot_point)) ;;
  shape ← new_segment body (py_neg left_length, Int 0) (right_length, Int 0)
    thickness;
  update_shape shape (with_friction 0.8) ;;
  update_shape shape (with_collision_type LEVER_COLLISION_TYPE) ;;
  (* Holder 1 *)
  holder1 ← new_segment body
    (py_add (py_mul (py_neg length) LEVER_LEFT_RATIO) (Int (-5)), Int 5)
    (py_add (py_mul (py_neg length) LEVER_LEFT_RATIO) (Int (-5)), Int (-20))
    thickness;
  update_shape holder1 (with_friction 0.5) ;;
  update_shape holder1 (with_elasticity 0.2) ;;
  (* Local positions of load and effort *)
  load_body ← get_body (crate_body load);
  let load_x := Float (body_position load_body).1 in
  effort_body ← get_body (crate_body effort);
  let effort_x := Float (body_position effort_body).1 in
  self_body ← get_body body;
  let lever_x := Float (body_position self_body).1 in
  let load_local_x := py_sub load_x lever_x in
  let effort_local_x := py_sub effort_x lever_x in
  let load_half_width := crate_size load in
  let effort_half_width := crate_size effort in
  (* Holder 2 *)
  holder2 ← new_segment body
    (py_add (py_add load_local_x load_half_width) (Int 5), Int 5)
    (py_add (py_add load_local_x load_half_width) (Int 5), Int (-20))
    thickness;
  update_shape holder2 (with_friction 0.5) ;;
  update_shape holder2 (with_elasticity 0.2) ;;
  (* Holder 3 *)
  holder3 ← new_segment body
    (py_sub (py_sub effort_local_x effort_half_width) (Int 5), Int 5)
    (py_sub (py_sub effort_local_x effort_half_width) (Int 5), Int (-20))
    thickness;
  update_shape holder3 (with_friction 0.5) ;;
  update_shape holder3 (with_elasticity 0.2) ;;
  (* Holder 4 *)
  holder4 ← new_segment body
    (py_add (py_mul (py_neg length) LEVER_LEFT_RATIO) (Int 355), Int 5)
    (py_add (py_mul (py_neg length) LEVER_LEFT_RATIO) (Int 355), Int (-20))
    (py_sub thickness (Int 5));
  update_shape holder4 (with_friction 0.5) ;;
  update_shape holder4 (with_elasticity 0.2) ;;
  update_shape holder4 (with_collision_type LEVER_COLLISION_TYPE) ;;
  space_add [body; shape; holder1; holder2; holder3; holder4] ;;
  sb ← gets (λ w, static_body (space w));
  pivot_joint ← alloc (OConstraint (PivotJoint body sb (vec pivot_point)));
  space_add [pivot_joint] ;;
  mret (mkLever length thickness mass pivot_point load effort body shape
    [holder1; holder2; holder3; holder4] holder1 holder2 holder3 holder4).




End Components.

(** ** Geometry read off the engine *)

(** [Poly.create_box(body, (w, h))] spans [w] by [h] around the body's
    centre: its half-extents are half of the size it is given. *)
Definition box_half_extents (g : Geometry) : option Vec2d :=
  match g with
  | Box (w, h) => Some (w / 2, h / 2)%float
  | _ => None
  end.

(** The local x of a vertical segment's two end points. *)
Definition segment_local_x (g : Geometry) : option (float * float) :=
  match g with
  | Segment a b _ => Some (a.1, b.1)
  | _ => None
  end.

(** [entity.body.position = p], done by the application or the engine. *)
Definition move_body (body : nat) (p : Vec2d) : M unit :=
  update_body body (with_position p).

(** What [space.add] leaves behind when nothing it is given is in the
    space yet: the objects are registered, or queued while the space is
    stepping. *)
Definition added (bs ss cs : list nat) (sp : Space) : Space :=
  mkSpace (static_body sp)
    (if locked sp then bodies sp else list_to_set bs ∪ bodies sp)
    (if locked sp then shapes sp else list_to_set ss ∪ shapes sp)
    (if locked sp then constraints sp else list_to_set cs ∪ constraints sp)
    (handlers sp) (locked sp)
    (if locked sp then list_to_set (bs ++ ss ++ cs) ∪ add_later sp
     else add_later sp)
    (remove_later sp).

(** ** Vocabulary of the properties *)

(** The identity the next new object gets. *)
Definition new_id (w : World) : nat := fresh (used w).

(** The trigger's body and shape are objects of the space. *)
Definition registered (self : Trigger) (w : World) : Prop :=
  (∃ b, heap w !! trigger_body self = Some (OBody b)) ∧
  (∃ s, heap w !! trigger_shape self = Some (OShape s)) ∧
  trigger_body self ∈ bodies (space w) ∧
  trigger_shape self ∈ shapes (space w).

(** The space once [remove()] has taken both out, and once it has queued
    them for the end of the step. *)
Definition deregistered (self : Trigger) (w : World) : World :=
  set_space (set_shapes (λ s, s ∖ {[ trigger_shape self ]}))
    (set_space (set_bodies (λ s, s ∖ {[ trigger_body self ]})) w).

Definition removal_queued (self : Trigger) (w : World) : World :=
  set_space (set_remove_later
    (union (list_to_set [trigger_body self; trigger_shape self]))) w.

(** The local x of the four holders, as [Lever.__init__] computes them. *)
Definition holder1_x (length : number) : number :=
  py_add (py_mul (py_neg length) LEVER_LEFT_RATIO) (Int (-5)).
Definition holder2_x (load_x lever_x : float) (load_size : number) : number :=
  py_add (py_add (py_sub (Float load_x) (Float lever_x)) load_size) (Int 5).
Definition holder3_x (effort_x lever_x : float) (effort_size : number) : number :=
  py_sub (py_sub (py_sub (Float effort_x) (Float lever_x)) effort_size) (Int 5).
Definition holder4_x (length : number) : number :=
  py_add (py_mul (py_neg length) LEVER_LEFT_RATIO) (Int 355).

Definition holder (body : nat) (x radius : number) (collision_type : Z) : Shape :=
  mkShape body (Segment (vec (x, Int 5)) (vec (x, Int (-20))) (to_float radius))
    0.5 0.2 0 false collision_type.

Definition holder_local_x (i : nat) (w : World) : option (float * float) :=
  match heap w !! i with
  | Some (OShape s) => segment_local_x (shape_geometry s)
  | _ => None
  end.

(** What one call of [draw] leaves: the target surface with the rotated
    texture blitted on it, everything else as it was. *)
Definition drew (image : Surface) (b : Body) (cx cy : Z) (surface : nat)
    (target : Surface) (w w' : World) : Prop :=
  let rotated := transform_rotate image (- math_degrees (body_angle b)) in
  heap w' !! surface = Some (OSurface (blit target rotated rotated (cx, cy))) ∧
  (∀ j o, heap w !! j = Some o → j ≠ surface → heap w' !! j = Some o) ∧
  space w' = space w.

Section Vocabulary.
Context `{Externals}.

(** The texture [Ball.__init__] paints. *)
Definition ball_texture (radius : number) : Surface :=
  draw_circle
    (draw_circle
       (draw_circle
          (Surface_new (py_mul radius (Int 2), py_mul radius (Int 2)) true)
          BALL_COLOR (radius, radius) radius (Int 0))
       BALL_EDGE_COLOR (radius, radius) radius (Int 2))
    BALL_HIGHLIGHT_COLOR (py_sub radius (Int 4), py_sub radius (Int 4))
    (floor_div float_floordiv radius (Int 3)) (Int 0).

(** [Catapult.create_arm] from its fourth statement on: the shapes, the
    calls of [space.add] and the joint, for the body [arm_body]. *)
Definition Catapult_attach (self : Catapult) (arm_body : nat) : M Catapult :=
  let stick_length := catapult_stick_length self in
  let stick_thickness := catapult_stick_thickness self in
  arm_shape ← new_segment arm_body (Int 0, Int 0)
    (py_neg stick_length, Int 0) stick_thickness;
  update_shape arm_shape (with_friction 0.8) ;;
  stopper_shape ← new_segment arm_body
    (py_neg stick_length, Int 0)
    (py_sub (py_neg stick_length) (Int 15), Int (-25))
    stick_thickness;
  update_shape stopper_shape (with_friction 0.5) ;;
  update_shape stopper_shape (with_elasticity 0.2) ;;
  stopper_shape2 ← new_segment arm_body
    (py_add (py_neg stick_length) (Int 20), Int 0)
    (py_add (py_neg stick_length) (Int 35), Int (-25))
    stick_thickness;
  update_shape stopper_shape2 (with_friction 0.5) ;;
  update_shape stopper_shape2 (with_elasticity 0.2) ;;
  space_add [arm_body; arm_shape; stopper_shape; stopper_shape2] ;;
  sb ← gets (λ w, static_body (space w));
  joint ← alloc (OConstraint
    (PivotJoint arm_body sb (vec (catapult_pivot self))));
  space_add [joint] ;;
  mret (mkCatapult (catapult_pivot self) stick_length stick_thickness
    (catapult_mass self) (catapult_base_w self) (catapult_base_h self)
    (catapult_moment self)
    (Some (mkCatapultArm arm_body arm_shape stopper_shape stopper_shape2))).

(** The scenario of the specification: a load crate of mass 2 at
    (100, 100), an effort crate of mass 1 at (300, 100), and a lever of
    length 300 and thickness 10 pivoting at (200, 100). *)
Definition lever_scenario : M (Crate * Crate * Lever) :=
  load ← Crate_init (Int 100, Int 100) (Int 2);
  effort ← Crate_init (Int 300, Int 100) (Int 1);
  lever ← Lever_init (Int 200, Int 100) (Int 300) (Int 10) load effort (Float 10);
  mret (load, effort, lever).

End Vocabulary.

Section HandlerVocabulary.
Context `{Callbacks}.

(** The user callback's part of [_handle_collision]. *)
Definition run_on_trigger (self : Trigger) (arbiter : Arbiter) (data : Data)
    : M unit :=
  match trigger_on_trigger self with
  | Some on_trigger => call on_trigger arbiter data
  | None => mret tt
  end.

End HandlerVocabulary.

(** ** Instances and sample worlds *)

(** Chipmunk2D's cpMomentForCircle, cpMomentForSegment and cpMomentForBox
    as pymunk calls them, and floor division of doubles as the floor of the
    exact quotient. *)
Definition cp_lengthsq (v : Vec2d) : float := (v.1 * v.1 + v.2 * v.2)%float.

Definition cpMomentForCircle (m r1 r2 : number) : float :=
  (to_float m * (0.5 * (to_float r1 * to_float r1 + to_float r2 * to_float r2)
                 + cp_lengthsq (0, 0)))%float.

Definition cpMomentForSegment (m : number) (a b : number * number)
    (r : number) : float :=
  let a := vec a in
  let b := vec b in
  let r := to_float r in
  let offset := (a.1 * (1 - 0.5) + b.1 * 0.5, a.2 * (1 - 0.5) + b.2 * 0.5)%float in
  let length := (sqrt (cp_lengthsq (b.1 - a.1, b.2 - a.2)) + 2 * r)%float in
  (to_float m * ((length * length + 4 * r * r) / 12 + cp_lengthsq offset))%float.

Definition cpMomentForBox (m : number) (size : number * number) : float :=
  let s := vec size in
  (to_float m * (s.1 * s.1 + s.2 * s.2) / 12)%float.

Definition SF2Z_scaled (x : spec_float) (e : Z) : option Z :=
  match x with
  | S754_zero _ => Some 0
  | S754_finite s m ex =>
      let v := Z.shiftl (Zpos m) (ex - e) in Some (if s then - v else v)
  | _ => None
  end.

Definition SF_exponent (x : spec_float) : Z :=
  match x with S754_finite _ _ e => e | _ => 0 end.

Definition floor_quotient (a b : float) : float :=
  let e := Z.min (SF_exponent (Prim2SF a)) (SF_exponent (Prim2SF b)) in
  match SF2Z_scaled (Prim2SF a) e, SF2Z_scaled (Prim2SF b) e with
  | Some x, Some y => if Z.eqb y 0 then nan else Z2F (x / y)
  | _, _ => nan
  end.

#[export] Instance Chipmunk : Externals :=
  {| moment_for_circle := cpMomentForCircle;
     moment_for_segment := cpMomentForSegment;
     moment_for_box := cpMomentForBox;
     float_floordiv := floor_quotient |}.

(** Two application callbacks: callable 0 raises, every other one returns
    at once. *)
#[export] Instance sample_callbacks : Callbacks :=
  {| call f _ _ :=
       match func_id f with
       | O => raise (CallbackError 0)
       | S _ => mret tt
       end |}.

Definition boom : Callable := PyFunction 0.
Definition sample_arbiter : Arbiter := mkArbiter 0.
Definition sample_data : Data := mkData 0.

(** A 40 by 20 trigger at (100, 200), built in a fresh space. *)
Definition sample_trigger (on_trigger : option Callable) : outcome Trigger * World :=
  Trigger_init (Int 100, Int 200) Trigger_default_width Trigger_default_height
    on_trigger empty_world.

Definition sample_trigger_object : Trigger :=
  mkTrigger (Int 100, Int 200) Trigger_default_width Trigger_default_height
    None 1 2.

(** The two crates of the scenario, in a fresh space. *)
Definition sample_load : Crate := mkCrate (Int 2) (Int 20) 1 2.
Definition sample_effort : Crate := mkCrate (Int 1) (Int 10) 3 4.

Definition sample_crates : outcome (Crate * Crate) * World :=
  (load ← Crate_init (Int 100, Int 100) (Int 2);
   effort ← Crate_init (Int 300, Int 100) (Int 1);
   mret (load, effort)) empty_world.

(** A ball and a projectile at (50.7, 60.2), turned by a quarter turn, and
    the screen they are drawn on. *)
Definition sample_scene : outcome (Ball * Projectile * nat) * World :=
  (ball ← Ball_init (Float 50.7) (Float 60.2) (Int 15);
   update_body (ball_body ball) (with_angle (math_pi / 2)) ;;
   body ← alloc (OBody (with_angle (math_pi / 2)
             (with_position (50.7, 60.2)%float (new_body DYNAMIC 100 0))));
   shape ← alloc (OShape (new_shape body (Circle 18.5)));
   image ← alloc (OSurface (Surface_new (Float 37, Float 37) true));
   screen ← alloc (OSurface (Surface_new (Int 800, Int 600) false));
   mret (ball, mkProjectile (Float 50.7) (Float 60.2) (Float 18.5) (Int 100)
                 false body shape image, screen)) empty_world.

Definition sample_ball : Ball := mkBall 1 2 (Int 15) 3.
Definition sample_projectile : Projectile :=
  mkProjectile (Float 50.7) (Float 60.2) (Float 18.5) (Int 100) false 4 5 6.
Definition sample_screen : nat := 7%nat.

(** ** More of game_components.py: Domino, Platform, Lever.draw *)

Definition BROWN : Color := [150; 100; 50].
Definition DARK_BROWN : Color := [100; 60; 20].

Record Domino := mkDomino {
  domino_body : nat;
  domino_shape : nat;
  domino_width : number;
  domino_height : number;
}.



(** [random.randint(a, b)]: the value the call returns, given how many calls
    of the random module came before it. *)
Class RandInt := { random_randint : nat → Z → Z → Z }.

(** [Body.local_to_world(v)]: the point [v] of the body's own frame in world
    coordinates, a function of the body's state. *)
Class BodyFrame := { local_to_world : Body → Vec2d → Vec2d }.


(** [shape.a] and [shape.b], which a segment has and no other shape. *)
Definition segment_a (shape : nat) : M Vec2d :=
  s ← get_shape shape;
  match shape_geometry s with
  | Segment a _ _ => mret a
  | _ => raise AttributeError
  end.

Definition segment_b (shape : nat) : M Vec2d :=
  s ← get_shape shape;
  match shape_geometry s with
  | Segment _ b _ => mret b
  | _ => raise AttributeError
  end.

Section MoreComponents.
Context `{Externals} `{Libm} `{RandInt} `{BodyFrame}.


(** [Domino.__init__(space, x, y, width=15, height=100)] *)
Definition Domino_init (x y width height : number) : M Domino :=
  let mass := Int 10 in
  let moment := moment_for_box mass (width, height) in
  body ← alloc (OBody (new_body DYNAMIC (to_float mass) moment));
  update_body body (with_position (vec (x, y))) ;;
  shape ← alloc (OShape (new_shape body (Box (vec (width, height)))));
  update_shape shape (with_elasticity 0.4) ;;
  update_shape shape (with_friction 0.8) ;;
  space_add [body; shape] ;;
  mret (mkDomino body shape width height).



(** [Lever.draw(screen)] *)
Definition Lever_draw (self : Lever) (screen : nat) : M unit :=
  for_each (lever_shape self :: lever_holder_shapes self) (λ shape,
    body ← get_body (lever_body self);
    sa ← segment_a shape;
    let a := local_to_world body sa in
    body ← get_body (lever_body self);
    sb ← segment_b shape;
    let b := local_to_world body sb in
    pygame_draw_line screen DARK_BROWN a b (py_add (lever_thickness self) (Int 5)) ;;
    pygame_draw_line screen BROWN a b (py_add (lever_thickness self) (Int 3))).

End MoreComponents.

(** ** Vocabulary of the further properties *)

(** What a constructor makes of the world: the objects [new] are new and
    distinct, and every other identity holds what it held. *)
Definition creates (new : list nat) (w w' : World) : Prop :=
  NoDup new ∧
  (∀ i, i ∈ new → i ∉ used w) ∧
  (∀ j, j ∉ new → heap w' !! j = heap w !! j).

(** How many drawing calls painted a surface, and the blank surface they
    started from. *)
Fixpoint paint_count (s : Surface) : nat :=
  match s with
  | Surface_new _ _ => 0
  | transform_rotate src _ => paint_count src
  | draw_circle dst _ _ _ _ => S (paint_count dst)
  | draw_line dst _ _ _ _ => S (paint_count dst)
  | blit dst _ _ _ => S (paint_count dst)
  end.




(** The space a step leaves once its queues are carried out. *)
Definition settled (bs ss : gset nat) (sp : Space) : Space :=
  mkSpace (static_body sp) bs ss (constraints sp) (handlers sp) false ∅ ∅.

(** The list of the results of [f] on the elements of [l], in order. *)
Fixpoint map_each {A B} (l : list A) (f : A → M B) : M (list B) :=
  match l with
  | [] => mret []
  | x :: l' => y ← f x; ys ← map_each l' f; mret (y :: ys)
  end.

(** One [space.step] in which the engine reports the beginning of several
    contacts between shapes of collision types [a] and [b], one after the
    other, to a handler that returns. *)
Definition contacts_step `{Callbacks} (a b : Z) (contacts : list (Arbiter * Data))
    : M (list (option bool)) :=
  space_begin_step ;;
  rs ← map_each contacts (λ c, fire_begin a b c.1 c.2);
  space_end_step ;;
  mret rs.

(** The world after the handler of [self] has run for each contact in
    turn, while the space is stepping: the callback's effect, then the
    queued removal. *)
Definition handled (self : Trigger) (effect : Arbiter → Data → World → World)
    (contacts : list (Arbiter * Data)) (w : World) : World :=
  fold_left (λ w0 c, removal_queued self (effect c.1 c.2 w0)) contacts w.

(** The callback leaves the space and the trigger's two objects alone. *)
Definition keeps_trigger (self : Trigger)
    (effect : Arbiter → Data → World → World) : Prop :=
  ∀ a d w0,
    space (effect a d w0) = space w0 ∧
    heap (effect a d w0) !! trigger_body self = heap w0 !! trigger_body self ∧
    heap (effect a d w0) !! trigger_shape self = heap w0 !! trigger_shape self.

(** The two strokes [Lever.draw] paints for one segment of the lever, given
    by its two end points in the body's frame, and all of them in turn. *)
Definition lever_stroke `{BodyFrame} (body : Body) (thickness : number)
    (s : Surface) (seg : Vec2d * Vec2d) : Surface :=
  let a := local_to_world body seg.1 in
  let b := local_to_world body seg.2 in
  draw_line (draw_line s DARK_BROWN a b (py_add thickness (Int 5)))
    BROWN a b (py_add thickness (Int 3)).

Definition lever_strokes `{BodyFrame} (body : Body) (thickness : number)
    (segs : list (Vec2d * Vec2d)) (target : Surface) : Surface :=
  fold_left (lever_stroke body thickness) segs target.

(** The end points of a holder at local x. *)
Definition holder_ends (x : number) : Vec2d * Vec2d :=
  (vec (x, Int 5), vec (x, Int (-20))).

(** The exception [int()] raises on the first coordinate of a position that
    is not finite, if there is one. *)
Definition int_failure (p : Vec2d) : option exn :=
  match py_int p.1, py_int p.2 with
  | Raise e, _ => Some e
  | Return _, Raise e => Some e
  | Return _, Return _ => None
  end.

(** ** Further instances and sample worlds *)

(** Cosine and sine by their power series, and a stream of random values
    that cycles through the eighths. *)
Fixpoint power_series (n : nat) (x2 term k : float) : float :=
  match n with
  | O => 0
  | S n' =>
      term + power_series n' x2 (- (term * x2) / ((k + 1) * (k + 2))) (k + 2)
  end.

Definition series_cos (x : float) : float := power_series 24 (x * x) 1 0.
Definition series_sin (x : float) : float := power_series 24 (x * x) x 1.

#[export] Instance sample_libm : Libm :=
  {| math_cos := series_cos;
     math_sin := series_sin;
     random_random n := (Z2F (Z.of_nat (n mod 8)) / 8)%float |}.

#[export] Instance sample_randint : RandInt :=
  {| random_randint n a b := a + Z.of_nat n mod (b - a + 1) |}.

(** Chipmunk2D's cpBodyLocalToWorld for a body whose centre of gravity is
    its origin: the point turned by the body's angle, then moved to its
    position. *)
Definition cpBodyLocalToWorld `{Libm} (b : Body) (v : Vec2d) : Vec2d :=
  let rot := (math_cos (body_angle b), math_sin (body_angle b)) in
  let p := body_position b in
  (rot.1 * v.1 + - rot.2 * v.2 + p.1, rot.2 * v.1 + rot.1 * v.2 + p.2)%float.

#[export] Instance Chipmunk_frame : BodyFrame :=
  {| local_to_world := cpBodyLocalToWorld |}.

(** A space in the middle of a step, with nothing queued yet. *)
Definition stepping_world : World := set_space (set_locked true) empty_world.

(** The sample trigger with a callback that returns at once. *)
Definition sample_armed_trigger : Trigger :=
  mkTrigger (Int 100, Int 200) Trigger_default_width Trigger_default_height
    (Some (PyFunction 1)) 1 2.

(** The two crates of the scenario and a screen. *)
Definition sample_lever_scene : outcome nat * World :=
  alloc (OSurface (Surface_new (Int 800, Int 600) false)) sample_crates.2.

(** The sample scene after the simulation has lost the ball to a NaN and
    the projectile to an infinity. *)
Definition lost_scene : outcome unit * World :=
  (update_body (ball_body sample_ball) (with_position (nan, 60.2)%float) ;;
   update_body (projectile_body sample_projectile)
     (with_position (50.7, infinity)%float)) sample_scene.2.


(** The sample scene with the ball far to the right and the projectile far
    up: positions a body reaches when nothing stops its flight. *)
Definition far_scene : outcome unit * World :=
  (update_body (ball_body sample_ball)
     (with_position (3000000000.5, 60.2)%float) ;;
   update_body (projectile_body sample_projectile)
     (with_position (50.7, -3000000000.5)%float)) sample_scene.2.

(** * Properties *)

(** ** Running the monad *)

Lemma new_id_fresh w : new_id w ∉ used w.
Proof. unfold new_id. exact (is_fresh (used w)). Qed.

Lemma bind_unfold {A B} (m : M A) (k : A → M B) w :
  (m ≫= k) w =
  match m w with (Return a, w') => k a w' | (Raise e, w') => (Raise e, w') end.
Proof. reflexivity. Qed.

Lemma bind_return {A B} (m : M A) (k : A → M B) w a w' :
  m w = (Return a, w') → (m ≫= k) w = k a w'.
Proof. intros E. rewrite bind_unfold, E. reflexivity. Qed.

Lemma bind_raise {A B} (m : M A) (k : A → M B) w e w' :
  m w = (Raise e, w') → (m ≫= k) w = (Raise e, w').
Proof. intros E. rewrite bind_unfold, E. reflexivity. Qed.

Lemma alloc_eq o w :
  alloc o w = (Return (new_id w), set_heap <[new_id w := o]> w).
Proof. reflexivity. Qed.

Lemma get_body_eq i b w :
  heap w !! i = Some (OBody b) → get_body i w = (Return b, w).
Proof. intros E. unfold get_body. rewrite bind_unfold. cbn. rewrite E. reflexivity. Qed.

Lemma get_shape_eq i s w :
  heap w !! i = Some (OShape s) → get_shape i w = (Return s, w).
Proof. intros E. unfold get_shape. rewrite bind_unfold. cbn. rewrite E. reflexivity. Qed.

Lemma get_surface_eq i s w :
  heap w !! i = Some (OSurface s) → get_surface i w = (Return s, w).
Proof. intros E. unfold get_surface. rewrite bind_unfold. cbn. rewrite E. reflexivity. Qed.

Lemma update_body_eq i f b w :
  heap w !! i = Some (OBody b) →
  update_body i f w = (Return tt, set_heap <[i := OBody (f b)]> w).
Proof.
  intros E. unfold update_body.
  rewrite (bind_return _ _ _ _ _ (get_body_eq _ _ _ E)). reflexivity.
Qed.

Lemma update_shape_eq i f s w :
  heap w !! i = Some (OShape s) →
  update_shape i f w = (Return tt, set_heap <[i := OShape (f s)]> w).
Proof.
  intros E. unfold update_shape.
  rewrite (bind_return _ _ _ _ _ (get_shape_eq _ _ _ E)). reflexivity.
Qed.

Lemma update_surface_eq i f s w :
  heap w !! i = Some (OSurface s) →
  update_surface i f w = (Return tt, set_heap <[i := OSurface (f s)]> w).
Proof.
  intros E. unfold update_surface.
  rewrite (bind_return _ _ _ _ _ (get_surface_eq _ _ _ E)). reflexivity.
Qed.

(** ** pymunk.Space.add on new objects *)

Lemma assert_true b msg w : b = true → assert b msg w = (Return tt, w).
Proof. intros ->. reflexivity. Qed.

Lemma assert_false b msg w :
  b = false → assert b msg w = (Raise (AssertionError msg), w).
Proof. intros ->. reflexivity. Qed.

Lemma space_add_locked objs w :
  locked (space w) = true →
  space_add objs w =
  (Return tt, set_space (set_add_later (union (list_to_set objs))) w).
Proof.
  intros E. unfold space_add. rewrite bind_unfold. cbn. rewrite E. reflexivity.
Qed.

Lemma add_bodies_skip (ss : list nat) w :
  Forall (λ s, ∃ o, heap w !! s = Some o ∧ ∀ b, o ≠ OBody b) ss →
  for_each ss (λ o,
      x ← gets (λ w, heap w !! o);
      match x with Some (OBody _) => _add_body o | _ => mret tt end) w
  = (Return tt, w).
Proof.
  induction 1 as [|s ss (o & E & Ho) _ IH]; [reflexivity|].
  cbn [for_each]. rewrite bind_unfold, bind_unfold. cbn. rewrite E.
  destruct o; try (exact IH). destruct (Ho b eq_refl).
Qed.

Lemma _add_body_eq b w :
  b ∉ bodies (space w) →
  _add_body b w = (Return tt, set_space (set_bodies (union {[ b ]})) w).
Proof.
  intros E. unfold _add_body. rewrite bind_unfold. cbn.
  rewrite bind_unfold, assert_true by (apply bool_decide_eq_true; exact E).
  reflexivity.
Qed.

Lemma _add_shape_eq i s w :
  i ∉ shapes (space w) →
  shape_body s ∈ bodies (space w) ∨ shape_body s = static_body (space w) →
  _add_shape i s w = (Return tt, set_space (set_shapes (union {[ i ]})) w).
Proof.
  intros E1 E2. unfold _add_shape. rewrite bind_unfold. cbn.
  rewrite bind_unfold, assert_true by (apply bool_decide_eq_true; exact E1).
  rewrite bind_unfold, assert_true by (apply bool_decide_eq_true; exact E2).
  reflexivity.
Qed.

Lemma _add_constraint_eq c w :
  c ∉ constraints (space w) →
  _add_constraint c w = (Return tt, set_space (set_constraints (union {[ c ]})) w).
Proof.
  intros E. unfold _add_constraint. rewrite bind_unfold. cbn.
  rewrite bind_unfold, assert_true by (apply bool_decide_eq_true; exact E).
  reflexivity.
Qed.

Lemma space_eq (s1 s2 : Space) :
  static_body s1 = static_body s2 → bodies s1 = bodies s2 →
  shapes s1 = shapes s2 → constraints s1 = constraints s2 →
  handlers s1 = handlers s2 → locked s1 = locked s2 →
  add_later s1 = add_later s2 → remove_later s1 = remove_later s2 →
  s1 = s2.
Proof. destruct s1, s2; cbn; intros; subst; reflexivity. Qed.

Lemma world_eq (w1 w2 : World) :
  heap w1 = heap w2 → space w1 = space w2 →
  random_state w1 = random_state w2 → w1 = w2.
Proof. destruct w1, w2; cbn; intros; subst; reflexivity. Qed.

(** The second pass of [space.add] over shapes of registered bodies. *)
Lemma add_shapes_eq (ss : list nat) w :
  NoDup ss →
  (∀ i, i ∈ ss → (i ∉ shapes (space w)) ∧ ∃ s, heap w !! i = Some (OShape s) ∧
     (shape_body s ∈ bodies (space w) ∨ shape_body s = static_body (space w))) →
  for_each ss (λ o,
      x ← gets (λ w, heap w !! o);
      match x with
      | Some (OBody _) => mret tt
      | Some (OShape s) => _add_shape o s
      | Some (OConstraint _) => _add_constraint o
      | _ => raise (Exception "Unsupported type")
      end) w
  = (Return tt, set_space (set_shapes (union (list_to_set ss))) w).
Proof.
  intros ND. revert w. induction ND as [|i ss Hi ND IH]; intros w HF.
  - cbn. f_equal. apply world_eq; try reflexivity.
    apply space_eq; try reflexivity. cbn. set_solver.
  - destruct (HF i) as (Hni & s & Es & Hb); [set_solver|].
    cbn [for_each]. rewrite bind_unfold, bind_unfold. cbn [gets]. rewrite Es.
    cbv beta iota. rewrite _add_shape_eq by assumption.
    rewrite IH.
    + f_equal. apply world_eq; try reflexivity.
      apply space_eq; try reflexivity. cbn. set_solver.
    + intros j Hj. destruct (HF j) as (Hnj & s' & Es' & Hb'); [set_solver|].
      split; [cbn; set_solver|]. exists s'. split; [exact Es'|exact Hb'].
Qed.

(** [space.add(body, shape, ...)] for a new body and new shapes on it. *)
Lemma space_add_body_shapes b (ss : list nat) w :
  locked (space w) = false →
  b ∉ bodies (space w) →
  (∃ bo, heap w !! b = Some (OBody bo)) →
  NoDup ss →
  (∀ i, i ∈ ss → (i ∉ shapes (space w)) ∧
     ∃ s, heap w !! i = Some (OShape s) ∧ shape_body s = b) →
  space_add (b :: ss) w = (Return tt, set_space (added [b] ss []) w).
Proof.
  intros Hl Hb (bo & Eb) ND HF.
  unfold space_add. rewrite bind_unfold. cbn [gets]. cbv beta iota. rewrite Hl.
  rewrite bind_unfold. cbn [for_each]. rewrite bind_unfold, bind_unfold.
  cbn [gets]. rewrite Eb. cbv beta iota. rewrite _add_body_eq by assumption.
  rewrite add_bodies_skip.
  2:{ apply Forall_forall. intros i Hi. destruct (HF i Hi) as (_ & s & Es & _).
      exists (OShape s). split; [exact Es|discriminate]. }
  rewrite bind_unfold, bind_unfold. cbn [gets heap set_space]. rewrite Eb.
  cbv beta iota. cbn [mret M_ret].
  rewrite add_shapes_eq; [|exact ND|].
  - f_equal. apply world_eq; try reflexivity. cbn [space set_space].
    apply space_eq; cbn; rewrite ?Hl; try reflexivity; set_solver.
  - intros i Hi. destruct (HF i Hi) as (Hn & s & Es & Hs).
    split; [exact Hn|]. exists s. split; [exact Es|]. left. cbn. set_solver.
Qed.

Lemma space_add_constraint c co w :
  locked (space w) = false →
  c ∉ constraints (space w) →
  heap w !! c = Some (OConstraint co) →
  space_add [c] w = (Return tt, set_space (added [] [] [c]) w).
Proof.
  intros Hl Hc Ec.
  unfold space_add. rewrite bind_unfold. cbn [gets]. cbv beta iota. rewrite Hl.
  rewrite bind_unfold. cbn [for_each]. rewrite bind_unfold, bind_unfold.
  cbn [gets]. rewrite Ec. cbv beta iota. cbn [mret M_ret].
  rewrite bind_unfold, bind_unfold. cbn [gets]. rewrite Ec. cbv beta iota.
  rewrite _add_constraint_eq by assumption. cbn [mret M_ret].
  f_equal. apply world_eq; try reflexivity. cbn [space set_space].
  apply space_eq; cbn; rewrite ?Hl; try reflexivity; set_solver.
Qed.

Lemma space_add_locked_added bs ss cs w :
  locked (space w) = true →
  space_add (bs ++ ss ++ cs) w = (Return tt, set_space (added bs ss cs) w).
Proof.
  intros Hl. rewrite space_add_locked by exact Hl.
  f_equal. apply world_eq; try reflexivity. cbn [space set_space].
  apply space_eq; cbn; rewrite ?Hl; try reflexivity; set_solver.
Qed.

(** ** Symbolic execution of the constructors *)

Lemma set_heap_insert_insert i o1 o2 w :
  set_heap <[i := o2]> (set_heap <[i := o1]> w) = set_heap <[i := o2]> w.
Proof. apply world_eq; try reflexivity. cbn. apply insert_insert_eq. Qed.

Lemma used_set_heap_insert i o w j :
  j ∉ used (set_heap <[i := o]> w) ↔ j ≠ i ∧ j ∉ used w.
Proof. unfold used. cbn. rewrite dom_insert_L. set_solver. Qed.

Lemma used_added bs ss cs w j :
  j ∉ used (set_space (added bs ss cs) w) → j ∉ used w.
Proof. unfold used. cbn. destruct (locked (space w)); set_solver. Qed.

Lemma lookup_used w i o : heap w !! i = Some o → i ∈ used w.
Proof.
  intros E. unfold used. apply (elem_of_dom_2 (D := gset nat)) in E. set_solver.
Qed.

Lemma py_truediv_2 a : py_truediv a (Int 2) = Return (true_div a (Int 2)).
Proof. reflexivity. Qed.

Ltac world_simpl :=
  cbn [heap space random_state set_heap set_space added static_body bodies
       shapes constraints handlers locked add_later remove_later set_bodies
       set_shapes set_constraints set_handlers set_locked set_add_later
       set_remove_later] in *.

Ltac use_lock :=
  repeat match goal with
  | Hl : locked (space _) = _ |- _ => rewrite !Hl in *
  end.

Lemma not_used_bodies i w : i ∉ used w → i ∉ bodies (space w).
Proof. unfold used. set_solver. Qed.
Lemma not_used_shapes i w : i ∉ used w → i ∉ shapes (space w).
Proof. unfold used. set_solver. Qed.
Lemma not_used_constraints i w : i ∉ used w → i ∉ constraints (space w).
Proof. unfold used. set_solver. Qed.

Ltac neq_tac := first [assumption | apply not_eq_sym; assumption].

(** A new identity is in none of the registries. *)
Ltac not_in_tac :=
  world_simpl; use_lock; cbn [list_to_set];
  rewrite ?not_elem_of_union; repeat split;
  first
    [ assumption
    | apply not_elem_of_empty
    | apply not_elem_of_singleton; neq_tac
    | apply not_used_bodies; assumption
    | apply not_used_shapes; assumption
    | apply not_used_constraints; assumption ].

Ltac lookup_tac :=
  world_simpl;
  repeat first
    [ rewrite lookup_insert_eq
    | rewrite lookup_insert_ne by neq_tac ];
  first [reflexivity | eassumption].

Ltac lock_tac := world_simpl; assumption.

Ltac fresh_norm H :=
  repeat first
    [ rewrite used_set_heap_insert in H
    | match type of H with
      | _ ∉ used (set_space (added _ _ _) _) => apply used_added in H
      | _ ∧ _ => let H' := fresh H in destruct H as [H' H]
      end ].

Ltac not_in_list_tac :=
  repeat (apply not_elem_of_cons; split; [neq_tac|]); apply not_elem_of_nil.

Ltac nodup_tac :=
  repeat (apply NoDup_cons; split; [not_in_list_tac|]); apply NoDup_nil_2.

Ltac shapes_tac :=
  let i := fresh "i" in let Hi := fresh "Hi" in
  intros i Hi;
  repeat (apply elem_of_cons in Hi as [->|Hi]);
  [ split; [not_in_tac | eexists; split; [lookup_tac | reflexivity]] ..
  | apply elem_of_nil in Hi; destruct Hi ].

(** The next statement of the program: an allocation, an attribute read
    or write, or a call of [space.add]. *)
Ltac step_alloc i Hi :=
  lazymatch goal with
  | |- context [ (alloc ?o ≫= ?k) ?w ] =>
      rewrite (bind_return (alloc o) k w _ _ (alloc_eq o w));
      pose proof (new_id_fresh w) as Hi;
      generalize dependent (new_id w); intros i Hi; cbv beta;
      fresh_norm Hi
  end.

Ltac step :=
  first
  [ erewrite (bind_return (update_body _ _)) by (apply update_body_eq; lookup_tac)
  | erewrite (bind_return (update_shape _ _)) by (apply update_shape_eq; lookup_tac)
  | erewrite (bind_return (update_surface _ _)) by (apply update_surface_eq; lookup_tac)
  | erewrite (bind_return (get_body _)) by (apply get_body_eq; lookup_tac)
  | erewrite (bind_return (get_surface _)) by (apply get_surface_eq; lookup_tac)
  | rewrite (bind_return (gets _) _ _ _ _ eq_refl) ];
  cbv beta; rewrite ?set_heap_insert_insert.

Ltac step_add_shapes :=
  lazymatch goal with
  | |- context [ (space_add (?b :: ?ss) ≫= ?k) ?w ] =>
      first
      [ rewrite (bind_return (space_add (b :: ss)) k w tt _
                   (space_add_locked_added [b] ss [] w ltac:(lock_tac)))
      | erewrite (bind_return (space_add (b :: ss)) k w tt)
          by (apply space_add_body_shapes;
              [ lock_tac | not_in_tac | eexists; lookup_tac | nodup_tac
              | shapes_tac ]) ]
  end.

Ltac step_add_constraint :=
  lazymatch goal with
  | |- context [ (space_add [?c] ≫= ?k) ?w ] =>
      first
      [ rewrite (bind_return (space_add [c]) k w tt _
                   (space_add_locked_added [] [] [c] w ltac:(lock_tac)))
      | erewrite (bind_return (space_add [c]) k w tt)
          by (eapply space_add_constraint; [lock_tac | not_in_tac | lookup_tac]) ]
  end.

(** ** Floating-point facts *)

Lemma float_mul_comm (x y : float) : (x * y = y * x)%float.
Proof.
  apply Prim2SF_inj. rewrite !mul_spec. unfold SF64mul, SFmul.
  destruct (Prim2SF x) as [sx|sx| |sx mx ex], (Prim2SF y) as [sy|sy| |sy my ey];
    try reflexivity; rewrite (xorb_comm sx sy); try reflexivity.
  rewrite (Pos.mul_comm mx my), (Z.add_comm ex ey). reflexivity.
Qed.

Lemma py_mul_comm a b : py_mul a b = py_mul b a.
Proof.
  destruct a, b; unfold py_mul, py_arith; cbn [to_float];
    rewrite ?(Z.mul_comm z), ?(float_mul_comm f); reflexivity.
Qed.

(** [int()] truncates toward zero and refuses what is not finite. *)
Example py_int_examples :
  py_int 10.7 = Return 10 ∧ py_int (-10.7) = Return (-10) ∧
  py_int 0.5 = Return 0 ∧ py_int nan = Raise ValueError ∧
  py_int infinity = Raise OverflowError.
Proof. repeat split; reflexivity. Qed.

Example true_div_examples :
  true_div (Int 40) (Int 2) = Float 20 ∧
  true_div (Int 1) (Int 3) = Float (1 / 3) ∧
  true_div (Int 7) (Float 2) = Float 3.5.
Proof. repeat split; reflexivity. Qed.

Example degrees_quarter_turn : math_degrees (math_pi / 2) = 90%float.
Proof. reflexivity. Qed.

(** ** The constructors *)

Ltac fresh_ids_tac :=
  let i := fresh "i" in let Hi := fresh "Hi" in
  intros i Hi;
  repeat (apply elem_of_cons in Hi as [->|Hi]); try assumption;
  apply elem_of_nil in Hi; destruct Hi.

Ltac finish_spec :=
  split; [nodup_tac|]; split; [fresh_ids_tac|];
  cbn [mret M_ret]; f_equal; apply world_eq; reflexivity.

Ltac split_nodup ND :=
  let Hn := fresh "Hn" in
  repeat (apply NoDup_cons in ND as (Hn & ND);
          repeat (apply not_elem_of_cons in Hn as (? & Hn)); clear Hn);
  clear ND.

Ltac in_list_tac :=
  repeat first [apply list_elem_of_here | apply list_elem_of_further].

Ltac decide_tac := apply (bool_decide_unpack _); vm_compute; exact I.

Section Constructors.
Context `{Externals}.

Lemma Crate_init_spec position mass w :
  let size := py_mul mass CRATE_SIZE_MULTIPLIER in
  let side := (py_mul size (Int 2), py_mul size (Int 2)) in
  ∃ body shape,
    NoDup [body; shape] ∧
    (∀ i, i ∈ [body; shape] → i ∉ used w) ∧
    Crate_init position mass w =
    (Return (mkCrate mass size body shape),
     mkWorld
       (<[shape := OShape (mkShape body (Box (vec side)) 0.8 0.6 0 false 0)]>
        (<[body := OBody (mkBody DYNAMIC (to_float mass)
                      (moment_for_box mass side) (vec position) 0 0)]>
           (heap w)))
       (added [body] [shape] [] (space w))
       (random_state w)).
Proof.
  unfold Crate_init. cbv zeta.
  step_alloc body Hbody. step.
  step_alloc shape Hshape. step. step.
  destruct (locked (space w)) eqn:Hl.
  all: step_add_shapes.
  all: exists body, shape; finish_spec.
Qed.

Lemma Ball_init_spec x y radius w :
  ∃ body shape image,
    NoDup [body; shape; image] ∧
    (∀ i, i ∈ [body; shape; image] → i ∉ used w) ∧
    Ball_init x y radius w =
    (Return (mkBall body shape radius image),
     mkWorld
       (<[image := OSurface (ball_texture radius)]>
        (<[shape := OShape (mkShape body (Circle (to_float radius))
                      0.5 1.0 0 false 1)]>
        (<[body := OBody (mkBody DYNAMIC (to_float (Int 10))
                      (moment_for_circle (Int 10) (Int 0) radius)
                      (vec (x, y)) 0 0)]>
           (heap w))))
       (added [body] [shape] [] (space w))
       (random_state w)).
Proof.
  unfold Ball_init. cbv zeta.
  step_alloc body Hbody. step.
  step_alloc shape Hshape. step. step. step.
  destruct (locked (space w)) eqn:Hl.
  all: step_add_shapes.
  all: step_alloc image Himage.
  all: unfold pygame_draw_circle; step; step; step.
  all: exists body, shape, image; finish_spec.
Qed.


Lemma Lever_init_spec pivot_point length thickness load effort mass w lb eb :
  heap w !! crate_body load = Some (OBody lb) →
  heap w !! crate_body effort = Some (OBody eb) →
  let left_length := py_mul length LEVER_LEFT_RATIO in
  let right_length := py_mul length LEVER_RIGHT_RATIO in
  let lever_x := to_float pivot_point.1 in
  ∃ body shape h1 h2 h3 h4 joint,
    NoDup [body; shape; h1; h2; h3; h4; joint] ∧
    (∀ i, i ∈ [body; shape; h1; h2; h3; h4; joint] → i ∉ used w) ∧
    Lever_init pivot_point length thickness load effort mass w =
    (Return (mkLever length thickness mass pivot_point load effort body shape
               [h1; h2; h3; h4] h1 h2 h3 h4),
     mkWorld
       (<[joint := OConstraint (PivotJoint body (static_body (space w))
                      (vec pivot_point))]>
        (<[h4 := OShape (holder body (holder4_x length)
                      (py_sub thickness (Int 5)) LEVER_COLLISION_TYPE)]>
        (<[h3 := OShape (holder body
                      (holder3_x (body_position eb).1 lever_x (crate_size effort))
                      thickness 0)]>
        (<[h2 := OShape (holder body
                      (holder2_x (body_position lb).1 lever_x (crate_size load))
                      thickness 0)]>
        (<[h1 := OShape (holder body (holder1_x length) thickness 0)]>
        (<[shape := OShape (mkShape body
                      (Segment (vec (py_neg left_length, Int 0))
                         (vec (right_length, Int 0)) (to_float thickness))
                      0.8 0 0 false LEVER_COLLISION_TYPE)]>
        (<[body := OBody (mkBody DYNAMIC (to_float mass)
                      (moment_for_segment mass (py_neg left_length, Int 0)
                         (right_length, Int 0) thickness)
                      (vec pivot_point) 0 0)]>
           (heap w))))))))
       (added [] [] [joint]
          (added [body] [shape; h1; h2; h3; h4] [] (space w)))
       (random_state w)).
Proof.
  intros Hload Heffort. cbv zeta.
  pose proof (lookup_used _ _ _ Hload) as Uload.
  pose proof (lookup_used _ _ _ Heffort) as Ueffort.
  unfold Lever_init, new_segment. cbv zeta.
  step_alloc body Hbody. step.
  step_alloc shape Hshape. step. step.
  step_alloc h1 Fa. step. step.
  assert (crate_body load ≠ body ∧ crate_body load ≠ shape ∧ crate_body load ≠ h1
          ∧ crate_body effort ≠ body ∧ crate_body effort ≠ shape
          ∧ crate_body effort ≠ h1) as (? & ? & ? & ? & ? & ?)
    by (repeat split; intros E;
        match goal with
        | Hn : _ ∉ used w |- _ =>
            rewrite <- E in Hn; first [exact (Hn Uload) | exact (Hn Ueffort)]
        end).
  step. step. step.
  step_alloc h2 Fb. step. step.
  step_alloc h3 Fc. step. step.
  step_alloc h4 Fd. step. step. step.
  destruct (locked (space w)) eqn:Hl.
  all: step_add_shapes; step.
  all: step_alloc joint Hjoint.
  all: step_add_constraint.
  all: exists body, shape, h1, h2, h3, h4, joint; finish_spec.
Qed.

Lemma Catapult_create_arm_split self w :
  let body := new_id w in
  Catapult_create_arm self w =
  Catapult_attach self body
    (set_heap <[body := OBody (mkBody DYNAMIC (to_float (catapult_mass self))
                  (catapult_moment self) (vec (catapult_pivot self)) 0 46)]> w).
Proof.
  cbv zeta. unfold Catapult_create_arm. cbv zeta.
  rewrite (bind_return (alloc _) _ w _ _ (alloc_eq _ w)).
  step. step. reflexivity.
Qed.

Lemma Catapult_attach_spec (self : Catapult) body bo w :
  heap w !! body = Some (OBody bo) →
  body ∉ bodies (space w) →
  let L := catapult_stick_length self in
  let t := catapult_stick_thickness self in
  ∃ arm s1 s2 joint,
    NoDup [body; arm; s1; s2; joint] ∧
    Catapult_attach self body w =
    (Return (mkCatapult (catapult_pivot self) L t (catapult_mass self)
               (catapult_base_w self) (catapult_base_h self)
               (catapult_moment self)
               (Some (mkCatapultArm body arm s1 s2))),
     mkWorld
       (<[joint := OConstraint (PivotJoint body (static_body (space w))
                      (vec (catapult_pivot self)))]>
        (<[s2 := OShape (mkShape body
                      (Segment (vec (py_add (py_neg L) (Int 20), Int 0))
                         (vec (py_add (py_neg L) (Int 35), Int (-25)))
                         (to_float t)) 0.5 0.2 0 false 0)]>
        (<[s1 := OShape (mkShape body
                      (Segment (vec (py_neg L, Int 0))
                         (vec (py_sub (py_neg L) (Int 15), Int (-25)))
                         (to_float t)) 0.5 0.2 0 false 0)]>
        (<[arm := OShape (mkShape body
                      (Segment (vec (Int 0, Int 0)) (vec (py_neg L, Int 0))
                         (to_float t)) 0.8 0 0 false 0)]>
           (heap w)))))
       (added [] [] [joint] (added [body] [arm; s1; s2] [] (space w)))
       (random_state w)).
Proof.
  intros Eb Hb. cbv zeta.
  pose proof (lookup_used _ _ _ Eb) as Ub.
  unfold Catapult_attach, new_segment. cbv zeta.
  step_alloc arm Fa.
  assert (arm ≠ body) by (intros ->; contradiction). step.
  step_alloc s1 Fb.
  assert (s1 ≠ body) by (intros ->; contradiction). step. step.
  step_alloc s2 Fc.
  assert (s2 ≠ body) by (intros ->; contradiction). step. step.
  destruct (locked (space w)) eqn:Hl.
  all: step_add_shapes; step.
  all: step_alloc joint Fj.
  all: assert (joint ≠ body) by (intros ->; contradiction).
  all: step_add_constraint.
  all: exists arm, s1, s2, joint.
  all: split; [nodup_tac|].
  all: cbn [mret M_ret]; f_equal; apply world_eq; reflexivity.
Qed.

End Constructors.

Lemma Trigger_init_spec position width height on_trigger w :
  let center := (py_add position.1 (true_div width (Int 2)),
                 py_add position.2 (true_div height (Int 2))) in
  ∃ body shape,
    let self := mkTrigger position width height on_trigger body shape in
    NoDup [body; shape] ∧
    (∀ i, i ∈ [body; shape] → i ∉ used w) ∧
    Trigger_init position width height on_trigger w =
    (Return self,
     mkWorld
       (<[shape := OShape (mkShape body (Box (vec (width, height)))
                      0 0 0 true 99)]>
        (<[body := OBody (mkBody STATIC 0 0 (vec center) 0 0)]>
           (heap w)))
       (set_handlers <[(1, 99) := self]> (added [body] [shape] [] (space w)))
       (random_state w)).
Proof.
  unfold Trigger_init. cbv zeta.
  rewrite !py_truediv_2.
  rewrite (bind_return (lift _) _ _ _ _ eq_refl).
  rewrite (bind_return (lift _) _ _ _ _ eq_refl).
  step_alloc body Hbody. step.
  step_alloc shape Hshape. step. step.
  destruct (locked (space w)) eqn:Hl.
  all: step_add_shapes.
  all: exists body, shape; finish_spec.
Qed.

(** ** pymunk.Space.remove and Trigger.remove *)

Lemma space_remove_locked objs w :
  locked (space w) = true →
  space_remove objs w =
  (Return tt, set_space (set_remove_later (union (list_to_set objs))) w).
Proof.
  intros E. unfold space_remove. rewrite bind_unfold. cbn. rewrite E. reflexivity.
Qed.

Lemma _remove_body_eq b w :
  b ∈ bodies (space w) →
  _remove_body b w = (Return tt, set_space (set_bodies (λ s, s ∖ {[ b ]})) w).
Proof.
  intros E. unfold _remove_body. rewrite bind_unfold. cbn.
  rewrite bind_unfold, assert_true by (apply bool_decide_eq_true; exact E).
  reflexivity.
Qed.

Lemma _remove_body_absent b w :
  b ∉ bodies (space w) →
  _remove_body b w =
  (Raise (AssertionError "body not in space, already removed?"), w).
Proof.
  intros E. unfold _remove_body. rewrite bind_unfold. cbn.
  rewrite bind_unfold, assert_false by (apply bool_decide_eq_false; exact E).
  reflexivity.
Qed.

Lemma _remove_shape_eq i w :
  i ∈ shapes (space w) →
  _remove_shape i w = (Return tt, set_space (set_shapes (λ s, s ∖ {[ i ]})) w).
Proof.
  intros E. unfold _remove_shape. rewrite bind_unfold. cbn.
  rewrite bind_unfold, assert_true by (apply bool_decide_eq_true; exact E).
  reflexivity.
Qed.

Lemma Trigger_remove_registered self w :
  locked (space w) = false → registered self w →
  Trigger_remove self w = (Return tt, deregistered self w).
Proof.
  intros Hl ((b & Eb) & (s & Es) & Hb & Hs).
  unfold Trigger_remove, space_remove.
  rewrite bind_unfold. cbn [gets]. cbv beta iota. rewrite Hl.
  cbn [for_each]. rewrite bind_unfold, bind_unfold. cbn [gets]. rewrite Eb.
  cbv beta iota. rewrite _remove_body_eq by exact Hb.
  rewrite bind_unfold, bind_unfold. cbn [gets heap set_space]. rewrite Es.
  cbv beta iota. rewrite _remove_shape_eq by exact Hs.
  reflexivity.
Qed.

Lemma Trigger_remove_absent self w b :
  locked (space w) = false →
  heap w !! trigger_body self = Some (OBody b) →
  trigger_body self ∉ bodies (space w) →
  Trigger_remove self w =
  (Raise (AssertionError "body not in space, already removed?"), w).
Proof.
  intros Hl Eb Hb.
  unfold Trigger_remove, space_remove.
  rewrite bind_unfold. cbn [gets]. cbv beta iota. rewrite Hl.
  cbn [for_each]. rewrite bind_unfold, bind_unfold. cbn [gets]. rewrite Eb.
  cbv beta iota. rewrite _remove_body_absent by exact Hb.
  reflexivity.
Qed.

Lemma Trigger_remove_locked self w :
  locked (space w) = true →
  Trigger_remove self w = (Return tt, removal_queued self w).
Proof. intros Hl. unfold Trigger_remove. rewrite space_remove_locked by exact Hl. reflexivity. Qed.

(** ** Drawing *)

(** Moving a body changes that body's position and nothing else. *)
Lemma move_body_frame i p w b :
  heap w !! i = Some (OBody b) →
  ∃ w', move_body i p w = (Return tt, w') ∧
    space w' = space w ∧
    heap w' !! i = Some (OBody (with_position p b)) ∧
    ∀ j, i ≠ j → heap w' !! j = heap w !! j.
Proof.
  intros E. eexists. split; [apply update_body_eq; exact E|].
  split; [reflexivity|]. cbn [heap set_heap].
  split; [apply lookup_insert_eq|].
  intros j Hj. apply lookup_insert_ne. exact Hj.
Qed.

Lemma pygame_transform_rotate_eq surface angle s w :
  heap w !! surface = Some (OSurface s) →
  pygame_transform_rotate surface angle w =
  (Return (new_id w),
   set_heap <[new_id w := OSurface (transform_rotate s angle)]> w).
Proof.
  intros E. unfold pygame_transform_rotate.
  rewrite (bind_return _ _ _ _ _ (get_surface_eq _ _ _ E)). reflexivity.
Qed.

Lemma get_rect_eq surface center s w :
  heap w !! surface = Some (OSurface s) →
  fits_c_int center.1 = true →
  fits_c_int center.2 = true →
  get_rect surface center w = (Return (mkRect s center), w).
Proof.
  intros E F1 F2. unfold get_rect.
  rewrite (bind_return _ _ _ _ _ (get_surface_eq _ _ _ E)).
  rewrite F1, F2. reflexivity.
Qed.

Lemma get_rect_raise surface center s w :
  heap w !! surface = Some (OSurface s) →
  fits_c_int center.1 && fits_c_int center.2 = false →
  get_rect surface center w = (Raise TypeError, w).
Proof.
  intros E F. unfold get_rect.
  rewrite (bind_return _ _ _ _ _ (get_surface_eq _ _ _ E)).
  rewrite F. reflexivity.
Qed.

Lemma surface_blit_eq dest source r d s w :
  heap w !! source = Some (OSurface s) →
  heap w !! dest = Some (OSurface d) →
  surface_blit dest source r w =
  (Return tt,
   set_heap <[dest := OSurface (blit d s (rect_of r) (rect_center r))]> w).
Proof.
  intros Es Ed. unfold surface_blit.
  rewrite (bind_return _ _ _ _ _ (get_surface_eq _ _ _ Es)).
  rewrite (update_surface_eq _ _ _ _ Ed). reflexivity.
Qed.

Lemma draw_rotated_spec body image surface w b img target cx cy :
  heap w !! body = Some (OBody b) →
  heap w !! image = Some (OSurface img) →
  heap w !! surface = Some (OSurface target) →
  py_int (body_position b).1 = Return cx →
  py_int (body_position b).2 = Return cy →
  fits_c_int cx = true →
  fits_c_int cy = true →
  let rotated := transform_rotate img (- math_degrees (body_angle b)) in
  draw_rotated body image surface w =
  (Return tt,
   set_heap (λ h, <[surface := OSurface (blit target rotated rotated (cx, cy))]>
                    (<[new_id w := OSurface rotated]> h)) w).
Proof.
  intros Eb Ei Es Ex Ey Fx Fy. cbv zeta.
  pose proof (lookup_used _ _ _ Es) as Us.
  pose proof (new_id_fresh w) as Hr.
  assert (new_id w ≠ surface) by (intros E; rewrite E in Hr; contradiction).
  unfold draw_rotated.
  rewrite (bind_return _ _ _ _ _ (get_body_eq _ _ _ Eb)). cbv zeta.
  rewrite (bind_return _ _ _ _ _ (pygame_transform_rotate_eq _ _ _ _ Ei)).
  rewrite Ex, (bind_return (lift _) _ _ _ _ eq_refl).
  rewrite Ey, (bind_return (lift _) _ _ _ _ eq_refl).
  erewrite (bind_return (get_rect _ _))
    by (apply get_rect_eq; [lookup_tac|exact Fx|exact Fy]).
  erewrite surface_blit_eq by lookup_tac.
  reflexivity.
Qed.

Lemma draw_rotated_drew body image surface w b img target cx cy :
  heap w !! body = Some (OBody b) →
  heap w !! image = Some (OSurface img) →
  heap w !! surface = Some (OSurface target) →
  py_int (body_position b).1 = Return cx →
  py_int (body_position b).2 = Return cy →
  fits_c_int cx = true →
  fits_c_int cy = true →
  ∃ w', draw_rotated body image surface w = (Return tt, w') ∧
    drew img b cx cy surface target w w'.
Proof.
  intros Eb Ei Es Ex Ey Fx Fy. eexists. split.
  - apply (draw_rotated_spec _ _ _ _ _ _ _ _ _ Eb Ei Es Ex Ey Fx Fy).
  - cbv zeta. unfold drew. cbn [heap set_heap space].
    split; [apply lookup_insert_eq|]. split; [|reflexivity].
    intros j o Ej Hj. rewrite lookup_insert_ne by (apply not_eq_sym; exact Hj).
    rewrite lookup_insert_ne; [exact Ej|].
    intros <-. apply (new_id_fresh w). eapply lookup_used, Ej.
Qed.

Section Texture.
Context `{Externals}.

(** The texture is painted in the constructor. *)
Lemma Ball_init_texture x y radius w :
  ∃ ball w', Ball_init x y radius w = (Return ball, w') ∧
    heap w' !! ball_image ball = Some (OSurface (ball_texture radius)).
Proof.
  destruct (Ball_init_spec x y radius w) as (body & shape & image & _ & _ & E).
  eexists _, _. split; [exact E|]. apply lookup_insert_eq.
Qed.

End Texture.

(** ** The sample worlds *)

Example sample_crates_built :
  sample_crates.1 = Return (sample_load, sample_effort).
Proof. vm_compute. reflexivity. Qed.

Lemma sample_load_body :
  ∃ b, heap sample_crates.2 !! crate_body sample_load = Some (OBody b) ∧
       body_position b = (100, 100)%float.
Proof. eexists. split; vm_compute; reflexivity. Defined.

Lemma sample_effort_body :
  ∃ b, heap sample_crates.2 !! crate_body sample_effort = Some (OBody b) ∧
       body_position b = (300, 100)%float.
Proof. eexists. split; vm_compute; reflexivity. Defined.

Example sample_scene_built :
  sample_scene.1 = Return (sample_ball, sample_projectile, sample_screen).
Proof. vm_compute. reflexivity. Qed.

(** A 40 by 20 trigger given the position (100, 200) has its body at
    (120, 210), so its box spans from (100, 200) to (140, 220). *)
Example trigger_center_example :
  ∃ self w b s,
    sample_trigger None = (Return self, w) ∧
    heap w !! trigger_body self = Some (OBody b) ∧
    body_position b = (120, 210)%float ∧
    heap w !! trigger_shape self = Some (OShape s) ∧
    box_half_extents (shape_geometry s) = Some (20, 10)%float ∧
    (120 - 20, 210 - 10)%float = (100, 200)%float.
Proof.
  eexists _, _, _, _. split; [vm_compute; reflexivity|].
  split; [vm_compute; reflexivity|]. split; [reflexivity|].
  split; [vm_compute; reflexivity|]. split; reflexivity.
Qed.

(** * The claims *)

Section Handler.
Context `{Callbacks}.

(** C1 (as amended).  When the begin-of-contact callback registered for the
    pair (1, 99) fires, the handler first calls the user callback, if there
    is one.  If the callback is absent or returns, the handler deregisters
    the trigger's body and shape (queued until the end of the step while
    the space is stepping, at once otherwise) and returns [False].  If the
    callback raises, the exception leaves the handler as it is: [remove()]
    is not reached and the world is the one the callback left. *)
Theorem C1_handle_collision self arbiter data w :
  match run_on_trigger self arbiter data w with
  | (Return _, w1) =>
      (locked (space w1) = true →
       Trigger_handle_collision self arbiter data w =
       (Return false, removal_queued self w1)) ∧
      (locked (space w1) = false → registered self w1 →
       Trigger_handle_collision self arbiter data w =
       (Return false, deregistered self w1) ∧
       trigger_body self ∉ bodies (space (deregistered self w1)) ∧
       trigger_shape self ∉ shapes (space (deregistered self w1)))
  | (Raise e, w1) =>
      Trigger_handle_collision self arbiter data w = (Raise e, w1)
  end ∧
  (handlers (space w) !! (1, 99) = Some self →
   fire_begin 1 99 arbiter data w =
   match Trigger_handle_collision self arbiter data w with
   | (Return r, w') => (Return (Some r), w')
   | (Raise e, w') => (Raise e, w')
   end).
Proof.
  split.
  - unfold Trigger_handle_collision. fold (run_on_trigger self arbiter data).
    rewrite bind_unfold.
    destruct (run_on_trigger self arbiter data w) as [[[]|e] w1]; [|reflexivity].
    split.
    + intros Hl. rewrite bind_unfold, Trigger_remove_locked by exact Hl.
      reflexivity.
    + intros Hl Hr. rewrite bind_unfold, Trigger_remove_registered by assumption.
      split; [reflexivity|]. cbn. set_solver.
  - intros Hh. unfold fire_begin. rewrite bind_unfold. cbn [gets]. rewrite Hh.
    cbv beta iota. rewrite bind_unfold.
    destruct (Trigger_handle_collision self arbiter data w) as [[r|e] w']; reflexivity.
Qed.

End Handler.

(** C1, the claim as stated fails: with a callback that raises, the handler
    raises too, and the trigger's body and shape are still in the space,
    not queued for removal, and still there after the step has ended. *)
Lemma C1_counterexample_raising_callback :
  ∃ self w w0 w',
    sample_trigger (Some boom) = (Return self, w) ∧
    space_begin_step w = (Return tt, w0) ∧
    fire_begin 1 99 sample_arbiter sample_data w0
      = (Raise (CallbackError 0), w') ∧
    trigger_body self ∈ bodies (space w') ∧
    trigger_shape self ∈ shapes (space w') ∧
    trigger_body self ∉ remove_later (space w') ∧
    trigger_shape self ∉ remove_later (space w') ∧
    ∃ w'', space_end_step w' = (Return tt, w'') ∧
      trigger_body self ∈ bodies (space w'') ∧
      trigger_shape self ∈ shapes (space w'').
Proof.
  eexists _, _, _, _. split; [vm_compute; reflexivity|].
  split; [reflexivity|].
  split; [vm_compute; reflexivity|].
  repeat (split; [decide_tac|]).
  eexists. split; [vm_compute; reflexivity|].
  split; decide_tac.
Qed.

(** With a callback that returns, the step ends with the trigger gone. *)
Example handler_normal_path :
  ∃ self w w0 w1 w2,
    sample_trigger (Some (PyFunction 1)) = (Return self, w) ∧
    space_begin_step w = (Return tt, w0) ∧
    fire_begin 1 99 sample_arbiter sample_data w0 = (Return (Some false), w1) ∧
    space_end_step w1 = (Return tt, w2) ∧
    trigger_body self ∉ bodies (space w2) ∧
    trigger_shape self ∉ shapes (space w2).
Proof.
  eexists _, _, _, _, _. split; [vm_compute; reflexivity|].
  split; [reflexivity|].
  split; [vm_compute; reflexivity|].
  split; [vm_compute; reflexivity|].
  split; decide_tac.
Qed.

(** C2 (as amended).  Outside a step, [remove()] on a trigger whose body
    and shape are in the space takes both out; calling it again is not a
    no-op: pymunk's membership assertion fails, an [AssertionError] is
    raised, and the space is left as the first call left it. *)
Theorem C2_remove_twice self w :
  locked (space w) = false → registered self w →
  Trigger_remove self w = (Return tt, deregistered self w) ∧
  trigger_body self ∉ bodies (space (deregistered self w)) ∧
  trigger_shape self ∉ shapes (space (deregistered self w)) ∧
  Trigger_remove self (deregistered self w) =
  (Raise (AssertionError "body not in space, already removed?"),
   deregistered self w).
Proof.
  intros Hl Hr. split; [apply Trigger_remove_registered; assumption|].
  assert (trigger_body self ∉ bodies (space (deregistered self w))) as Hb
    by (cbn; set_solver).
  split; [exact Hb|]. split; [cbn; set_solver|].
  destruct Hr as ((b & Eb) & _).
  apply (Trigger_remove_absent _ _ b); [exact Hl|exact Eb|exact Hb].
Qed.

Lemma C2_remove_twice_witness :
  Trigger_remove sample_trigger_object (sample_trigger None).2 =
    (Return tt, deregistered sample_trigger_object (sample_trigger None).2) ∧
  trigger_body sample_trigger_object
    ∉ bodies (space (deregistered sample_trigger_object (sample_trigger None).2)) ∧
  trigger_shape sample_trigger_object
    ∉ shapes (space (deregistered sample_trigger_object (sample_trigger None).2)) ∧
  Trigger_remove sample_trigger_object
    (deregistered sample_trigger_object (sample_trigger None).2) =
  (Raise (AssertionError "body not in space, already removed?"),
   deregistered sample_trigger_object (sample_trigger None).2).
Proof.
  apply C2_remove_twice.
  - vm_compute. reflexivity.
  - split; [|split; [|split]].
    + eexists. vm_compute. reflexivity.
    + eexists. vm_compute. reflexivity.
    + decide_tac.
    + decide_tac.
Defined.

(** C2, the claim as stated fails: a trigger without callback is hit during
    a step, the handler queues its removal, the step ends, and the
    teardown's [remove()] then raises. *)
Lemma C2_counterexample_second_remove :
  ∃ self w w0 w1 w2,
    sample_trigger None = (Return self, w) ∧
    space_begin_step w = (Return tt, w0) ∧
    fire_begin 1 99 sample_arbiter sample_data w0 = (Return (Some false), w1) ∧
    space_end_step w1 = (Return tt, w2) ∧
    trigger_body self ∉ bodies (space w2) ∧
    trigger_shape self ∉ shapes (space w2) ∧
    locked (space w2) = false ∧
    Trigger_remove self w2 =
    (Raise (AssertionError "body not in space, already removed?"), w2).
Proof.
  eexists _, _, _, _, _. split; [vm_compute; reflexivity|].
  split; [reflexivity|].
  split; [vm_compute; reflexivity|].
  split; [vm_compute; reflexivity|].
  repeat (split; [decide_tac|]).
  split; vm_compute; reflexivity.
Qed.

Section Claims.
Context `{Externals}.

(** C3.  After [Lever.__init__], holder 2 sits at local x
    [(load.x - lever.x) + load.size + 5] and holder 3 at
    [(effort.x - lever.x) - effort.size - 5], from the positions load and
    effort have when the lever is built; moving load or effort afterwards
    leaves both holders as they are.  In the scenario of the
    specification the two values are -75 and 85. *)
Theorem C3_holder_offsets pivot_point length thickness load effort mass w lb eb :
  heap w !! crate_body load = Some (OBody lb) →
  heap w !! crate_body effort = Some (OBody eb) →
  (∃ self w' bl s2 s3,
    Lever_init pivot_point length thickness load effort mass w = (Return self, w') ∧
    heap w' !! lever_body self = Some (OBody bl) ∧
    body_position bl = vec pivot_point ∧
    heap w' !! lever_holder_shape2 self = Some (OShape s2) ∧
    heap w' !! lever_holder_shape3 self = Some (OShape s3) ∧
    shape_body s2 = lever_body self ∧
    shape_body s3 = lever_body self ∧
    let load_x := Float (body_position lb).1 in
    let effort_x := Float (body_position eb).1 in
    let lever_x := Float (body_position bl).1 in
    let x2 := to_float
      (py_add (py_add (py_sub load_x lever_x) (crate_size load)) (Int 5)) in
    let x3 := to_float
      (py_sub (py_sub (py_sub effort_x lever_x) (crate_size effort)) (Int 5)) in
    segment_local_x (shape_geometry s2) = Some (x2, x2) ∧
    segment_local_x (shape_geometry s3) = Some (x3, x3) ∧
    ∀ p q, ∃ w'',
      (move_body (crate_body load) p ;; move_body (crate_body effort) q) w'
        = (Return tt, w'') ∧
      heap w'' !! lever_holder_shape2 self = Some (OShape s2) ∧
      heap w'' !! lever_holder_shape3 self = Some (OShape s3)) ∧
  (∃ load effort lever w',
    lever_scenario empty_world = (Return (load, effort, lever), w') ∧
    crate_size load = Int 20 ∧ crate_size effort = Int 10 ∧
    holder_local_x (lever_holder_shape2 lever) w' = Some (-75, -75)%float ∧
    holder_local_x (lever_holder_shape3 lever) w' = Some (85, 85)%float).
Proof.
  intros Hload Heffort. split.
  - destruct (Lever_init_spec pivot_point length thickness load effort mass w
                lb eb Hload Heffort)
      as (body & shape & h1 & h2 & h3 & h4 & joint & ND & Hfresh & E).
    pose proof (lookup_used _ _ _ Hload) as Uload.
    pose proof (lookup_used _ _ _ Heffort) as Ueffort.
    assert (∀ i, i ∈ [body; shape; h1; h2; h3; h4; joint] →
                 i ≠ crate_body load ∧ i ≠ crate_body effort) as Hne.
    { intros i Hi. specialize (Hfresh i Hi). split; intros ->; contradiction. }
    destruct (Hne body) as (? & ?); [in_list_tac|].
    destruct (Hne shape) as (? & ?); [in_list_tac|].
    destruct (Hne h1) as (? & ?); [in_list_tac|].
    destruct (Hne h2) as (? & ?); [in_list_tac|].
    destruct (Hne h3) as (? & ?); [in_list_tac|].
    destruct (Hne h4) as (? & ?); [in_list_tac|].
    destruct (Hne joint) as (? & ?); [in_list_tac|].
    clear Hne Hfresh.
    repeat (apply NoDup_cons in ND as (Hn & ND);
            repeat (apply not_elem_of_cons in Hn as (? & Hn)); clear Hn).
    clear ND.
    eexists _, _, _, _, _. split; [exact E|].
    cbn [lever_body lever_holder_shape2 lever_holder_shape3 heap].
    split; [lookup_tac|]. split; [reflexivity|].
    split; [lookup_tac|]. split; [lookup_tac|].
    split; [reflexivity|]. split; [reflexivity|].
    cbv zeta. split; [reflexivity|]. split; [reflexivity|].
    intros p q.
    match type of E with _ = (_, ?W) => set (w' := W) in * end.
    assert (heap w' !! crate_body load = Some (OBody lb)) as El
      by (unfold w'; lookup_tac).
    assert (heap w' !! crate_body effort = Some (OBody eb)) as Ee
      by (unfold w'; lookup_tac).
    destruct (move_body_frame (crate_body load) p w' lb El) as (w1 & E1 & _ & F1).
    assert (∃ b', heap w1 !! crate_body effort = Some (OBody b')) as (b' & Eb').
    { destruct (decide (crate_body effort = crate_body load)) as [->|Hd].
      - eexists. apply F1.
      - eexists. rewrite (proj2 F1) by (apply not_eq_sym; exact Hd). exact Ee. }
    destruct (move_body_frame (crate_body effort) q w1 b' Eb')
      as (w2 & E2 & _ & F2).
    exists w2. split; [rewrite (bind_return _ _ _ _ _ E1); exact E2|].
    rewrite !(proj2 F2), !(proj2 F1) by neq_tac.
    unfold w'. split; lookup_tac.
  - eexists _, _, _, _. split; [vm_compute; reflexivity|].
    split; [reflexivity|]. split; [reflexivity|].
    split; vm_compute; reflexivity.
Qed.

(** C4 (as amended).  A crate of mass [m] has [size = 10 * m]; its box is
    built with full side length [2 * size], so that its half-extent is half
    of that side. *)
Theorem C4_crate_size position mass w :
  ∃ self w' s,
    Crate_init position mass w = (Return self, w') ∧
    crate_mass self = mass ∧
    crate_size self = py_mul (Int 10) mass ∧
    heap w' !! crate_shape self = Some (OShape s) ∧
    shape_body s = crate_body self ∧
    let side := to_float (py_mul (Int 2) (crate_size self)) in
    shape_geometry s = Box (side, side) ∧
    box_half_extents (shape_geometry s) = Some (side / 2, side / 2)%float.
Proof.
  destruct (Crate_init_spec position mass w) as (body & shape & _ & _ & E).
  eexists _, _, _. split; [exact E|].
  cbn [crate_mass crate_size crate_shape crate_body heap].
  split; [reflexivity|]. split; [apply py_mul_comm|].
  split; [apply lookup_insert_eq|]. split; [reflexivity|].
  cbn [shape_geometry vec fst snd]. rewrite (py_mul_comm _ (Int 2)).
  split; reflexivity.
Qed.


(** C6.  Holder 4 of a lever of length [L] sits at local x
    [-L * 0.4 + 355], whatever load, effort and pivot are, and carries the
    collision type 2 of the main beam. *)
Theorem C6_holder4 pivot_point length thickness load effort mass w lb eb :
  heap w !! crate_body load = Some (OBody lb) →
  heap w !! crate_body effort = Some (OBody eb) →
  ∃ self w' beam s4,
    Lever_init pivot_point length thickness load effort mass w = (Return self, w') ∧
    heap w' !! lever_shape self = Some (OShape beam) ∧
    heap w' !! lever_holder_shape4 self = Some (OShape s4) ∧
    shape_body s4 = lever_body self ∧
    let x4 := to_float (py_add (py_mul (py_neg length) (Float 0.4)) (Int 355)) in
    shape_geometry s4 =
      Segment (x4, 5%float) (x4, (-20)%float) (to_float (py_sub thickness (Int 5))) ∧
    segment_local_x (shape_geometry s4) = Some (x4, x4) ∧
    shape_collision_type s4 = 2 ∧
    shape_collision_type beam = 2.
Proof.
  intros Hload Heffort.
  destruct (Lever_init_spec pivot_point length thickness load effort mass w
              lb eb Hload Heffort)
    as (body & shape & h1 & h2 & h3 & h4 & joint & ND & _ & E).
  repeat (apply NoDup_cons in ND as (Hn & ND);
          repeat (apply not_elem_of_cons in Hn as (? & Hn)); clear Hn).
  clear ND.
  eexists _, _, _, _. split; [exact E|].
  cbn [lever_body lever_shape lever_holder_shape4 heap].
  split; [lookup_tac|]. split; [lookup_tac|].
  repeat split.
Qed.

(** C7.  [Catapult.__init__] creates one dynamic body at the pivot and
    gives it the angular velocity 46 before anything is attached: the arm
    and the two stopper segments on that body, and the pivot joint between
    the body and the static frame, anchored at the pivot. *)
Theorem C7_catapult_spin pivot stick_length stick_thickness w :
  ∃ self arm joint w' b,
    Catapult_init pivot stick_length stick_thickness w = (Return self, w') ∧
    catapult_arm self = Some arm ∧
    (* one dynamic body at the pivot, already spinning *)
    heap w' !! arm_body arm = Some (OBody b) ∧
    body_type b = DYNAMIC ∧
    body_position b = vec pivot ∧
    body_angular_velocity b = 46%float ∧
    (body_angular_velocity b =? 0)%float = false ∧
    (* the velocity is set before anything is attached *)
    (∃ w1, space w1 = space w ∧
       heap w1 = <[arm_body arm := OBody b]> (heap w) ∧
       Catapult_init pivot stick_length stick_thickness w =
       Catapult_attach
         (mkCatapult pivot stick_length stick_thickness (Int 500) (Int 80)
            (Int 20)
            (moment_for_segment (Int 500) (Int 0, Int 0)
               (py_neg stick_length, Int 0) stick_thickness) None)
         (arm_body arm) w1) ∧
    (* the arm and the two stoppers, on that body *)
    (∀ i, i ∈ [arm_shape arm; stopper_shape arm; stopper_shape2 arm] →
       ∃ s a b' r, heap w' !! i = Some (OShape s) ∧
         shape_body s = arm_body arm ∧ shape_geometry s = Segment a b' r) ∧
    (* the pivot joint to the static frame, anchored at the pivot *)
    heap w' !! joint =
      Some (OConstraint
              (PivotJoint (arm_body arm) (static_body (space w)) (vec pivot))) ∧
    (* body and shapes are added to the space in one call, then the joint *)
    space w' =
      added [] [] [joint]
        (added [arm_body arm]
           [arm_shape arm; stopper_shape arm; stopper_shape2 arm] []
           (space w)) ∧
    (locked (space w) = false →
     bodies (space w') = {[ arm_body arm ]} ∪ bodies (space w) ∧
     shapes (space w') =
       {[ arm_shape arm; stopper_shape arm; stopper_shape2 arm ]}
       ∪ shapes (space w) ∧
     constraints (space w') = {[ joint ]} ∪ constraints (space w)).
Proof.
  unfold Catapult_init. cbv zeta.
  set (self0 := mkCatapult _ _ _ _ _ _ _ _).
  rewrite (Catapult_create_arm_split self0 w). cbv zeta.
  pose proof (new_id_fresh w) as Hbody.
  set (body := new_id w) in *. clearbody body.
  set (w1 := set_heap _ w).
  destruct (Catapult_attach_spec self0 body _ w1 (lookup_insert_eq _ _ _))
    as (arm & s1 & s2 & joint & ND & E).
  { change (body ∉ bodies (space w)). apply not_used_bodies. exact Hbody. }
  cbv zeta in E. split_nodup ND.
  eexists _, (mkCatapultArm body arm s1 s2), joint, _, _.
  split; [exact E|]. split; [reflexivity|].
  cbn [arm_body arm_shape stopper_shape stopper_shape2 heap space w1
       set_heap set_space static_body].
  split; [lookup_tac|]. split; [reflexivity|]. split; [reflexivity|].
  split; [reflexivity|]. split; [reflexivity|].
  split.
  { exists w1. split; [reflexivity|]. split; [reflexivity|].
    rewrite E. reflexivity. }
  split.
  { intros i Hi. repeat (apply elem_of_cons in Hi as [->|Hi]);
      [eexists _, _, _, _; split; [lookup_tac|split; reflexivity] ..
      | apply elem_of_nil in Hi; destruct Hi]. }
  split; [lookup_tac|].
  split; [reflexivity|].
  intros Hl. cbn [added bodies shapes constraints locked]. rewrite Hl.
  cbn [list_to_set]. clear. repeat split; set_solver.
Qed.

(** C8.  The collision types set at construction: 1 on the ball's shape, 2
    on the lever's main beam and on holder 4, 99 on the trigger's sensor
    shape; and the trigger registers its handler for the pair (1, 99) and
    for no other. *)
Theorem C8_collision_types x y radius pivot_point length thickness load effort
    mass position width height on_trigger w lb eb :
  heap w !! crate_body load = Some (OBody lb) →
  heap w !! crate_body effort = Some (OBody eb) →
  (∃ ball w' s,
     Ball_init x y radius w = (Return ball, w') ∧
     heap w' !! ball_shape ball = Some (OShape s) ∧
     shape_collision_type s = 1) ∧
  (∃ lever w' beam s4,
     Lever_init pivot_point length thickness load effort mass w = (Return lever, w') ∧
     heap w' !! lever_shape lever = Some (OShape beam) ∧
     heap w' !! lever_holder_shape4 lever = Some (OShape s4) ∧
     shape_collision_type beam = 2 ∧
     shape_collision_type s4 = 2) ∧
  (∃ trigger w' s,
     Trigger_init position width height on_trigger w = (Return trigger, w') ∧
     heap w' !! trigger_shape trigger = Some (OShape s) ∧
     shape_sensor s = true ∧
     shape_collision_type s = 99 ∧
     handlers (space w') = <[(1, 99) := trigger]> (handlers (space w))).
Proof.
  intros Hload Heffort. split; [|split].
  - destruct (Ball_init_spec x y radius w) as (body & shape & image & ND & _ & E).
    repeat (apply NoDup_cons in ND as (Hn & ND);
            repeat (apply not_elem_of_cons in Hn as (? & Hn)); clear Hn).
    eexists _, _, _. split; [exact E|]. cbn [ball_shape heap].
    split; [lookup_tac|reflexivity].
  - destruct (Lever_init_spec pivot_point length thickness load effort mass w
                lb eb Hload Heffort)
      as (body & shape & h1 & h2 & h3 & h4 & joint & ND & _ & E).
    repeat (apply NoDup_cons in ND as (Hn & ND);
            repeat (apply not_elem_of_cons in Hn as (? & Hn)); clear Hn).
    eexists _, _, _, _. split; [exact E|].
    cbn [lever_shape lever_holder_shape4 heap].
    split; [lookup_tac|]. split; [lookup_tac|]. split; reflexivity.
  - destruct (Trigger_init_spec position width height on_trigger w)
      as (body & shape & _ & _ & E).
    eexists _, _, _. split; [exact E|]. cbn [trigger_shape heap space].
    split; [apply lookup_insert_eq|]. repeat split.
Qed.

(** C9.  [draw] of a ball and of a projectile whose body is at angle
    [theta], at a position that [int()] turns into whole pixels (a finite
    one) which fit a C int, rotates the texture stored at construction by
    [-degrees(theta)] and blits the result on the target surface, centred
    at the body's position in whole pixels; the stored texture is left as
    it was. *)
Theorem C9_draw_rotates_texture (ball : Ball) (projectile : Projectile)
    surface target w bb ib cxb cyb pb ip cxp cyp :
  heap w !! surface = Some (OSurface target) →
  (* the ball: its body, its texture, its position in pixels *)
  heap w !! ball_body ball = Some (OBody bb) →
  heap w !! ball_image ball = Some (OSurface ib) →
  surface ≠ ball_image ball →
  py_int (body_position bb).1 = Return cxb →
  py_int (body_position bb).2 = Return cyb →
  fits_c_int cxb = true →
  fits_c_int cyb = true →
  (* the projectile *)
  heap w !! projectile_body projectile = Some (OBody pb) →
  heap w !! projectile_image projectile = Some (OSurface ip) →
  surface ≠ projectile_image projectile →
  py_int (body_position pb).1 = Return cxp →
  py_int (body_position pb).2 = Return cyp →
  fits_c_int cxp = true →
  fits_c_int cyp = true →
  (∃ w', Ball_draw ball surface w = (Return tt, w') ∧
     heap w' !! surface =
       Some (OSurface
               (blit target
                  (transform_rotate ib (- math_degrees (body_angle bb)))
                  (transform_rotate ib (- math_degrees (body_angle bb)))
                  (cxb, cyb))) ∧
     heap w' !! ball_image ball = Some (OSurface ib) ∧
     drew ib bb cxb cyb surface target w w') ∧
  (∃ w', Projectile_draw projectile surface w = (Return tt, w') ∧
     heap w' !! surface =
       Some (OSurface
               (blit target
                  (transform_rotate ip (- math_degrees (body_angle pb)))
                  (transform_rotate ip (- math_degrees (body_angle pb)))
                  (cxp, cyp))) ∧
     heap w' !! projectile_image projectile = Some (OSurface ip) ∧
     drew ip pb cxp cyp surface target w w').
Proof.
  intros Es Eb Ei Hi Ex Ey Fx Fy Epb Epi Hpi Epx Epy Fpx Fpy. split.
  - destruct (draw_rotated_drew _ _ _ _ _ _ _ _ _ Eb Ei Es Ex Ey Fx Fy)
      as (w' & E & D).
    exists w'. split; [exact E|]. split; [exact (proj1 D)|].
    split; [|exact D]. destruct D as (_ & F & _).
    apply F; [exact Ei|apply not_eq_sym; exact Hi].
  - destruct (draw_rotated_drew _ _ _ _ _ _ _ _ _ Epb Epi Es Epx Epy Fpx Fpy)
      as (w' & E & D).
    exists w'. split; [exact E|]. split; [exact (proj1 D)|].
    split; [|exact D]. destruct D as (_ & F & _).
    apply F; [exact Epi|apply not_eq_sym; exact Hpi].
Qed.

End Claims.

(** C10.  A trigger built with position (x, y), width [w] and height [h]
    has its static body at [(x + w / 2, y + h / 2)] and a [w] by [h] sensor
    box around it: the position is the box's top-left corner.  The halves
    are true quotients: the binary64 quotient of a float size, 20 and 10
    for the default 40 by 20, and 7.5 for a width of 15. *)
Theorem C10_trigger_center position width height on_trigger w :
  ∃ self w' b s,
    Trigger_init position width height on_trigger w = (Return self, w') ∧
    heap w' !! trigger_body self = Some (OBody b) ∧
    body_type b = STATIC ∧
    body_position b =
      (to_float (py_add position.1 (true_div width (Int 2))),
       to_float (py_add position.2 (true_div height (Int 2)))) ∧
    heap w' !! trigger_shape self = Some (OShape s) ∧
    shape_body s = trigger_body self ∧
    shape_geometry s = Box (to_float width, to_float height) ∧
    box_half_extents (shape_geometry s) =
      Some (to_float width / 2, to_float height / 2)%float ∧
    (* what [/ 2] is *)
    (∀ f : float, true_div (Float f) (Int 2) = Float (f / 2)%float) ∧
    true_div Trigger_default_width (Int 2) = Float 20 ∧
    true_div Trigger_default_height (Int 2) = Float 10 ∧
    true_div (Int 15) (Int 2) = Float 7.5.
Proof.
  destruct (Trigger_init_spec position width height on_trigger w)
    as (body & shape & ND & _ & E).
  apply NoDup_cons in ND as (Hne & _).
  apply not_elem_of_cons in Hne as (Hne & _).
  eexists _, _, _, _. split; [exact E|].
  cbn [trigger_body trigger_shape heap].
  split; [rewrite lookup_insert_ne by (apply not_eq_sym; exact Hne);
          apply lookup_insert_eq|].
  split; [reflexivity|]. split; [reflexivity|].
  split; [apply lookup_insert_eq|].
  repeat split.
Qed.

(** ** Counterexamples and witnesses on the sample worlds *)

(** C4, the claim as stated fails: a crate of mass 1 has size 10 and a 20 by
    20 box, whose half-extent is 10 and not [2 * size = 20]. *)
Lemma C4_counterexample_half_extent :
  ∃ self w s,
    Crate_init (Int 0, Int 0) (Int 1) empty_world = (Return self, w) ∧
    crate_size self = Int 10 ∧
    heap w !! crate_shape self = Some (OShape s) ∧
    shape_geometry s = Box (20, 20)%float ∧
    box_half_extents (shape_geometry s) = Some (10, 10)%float ∧
    (10 : float) ≠ to_float (py_mul (Int 2) (crate_size self)).
Proof.
  eexists _, _, _. split; [vm_compute; reflexivity|].
  split; [reflexivity|]. split; [vm_compute; reflexivity|].
  split; [reflexivity|]. split; [reflexivity|].
  vm_compute. intros E.
  assert (PrimFloat.eqb 10 20 = true) as E' by (rewrite <- E; reflexivity).
  vm_compute in E'. discriminate E'.
Qed.


(** C9, the claim as stated fails: a ball at (3000000000.5, 60.2) and a
    projectile at (50.7, -3000000000.5) are not drawn.  [int()] returns,
    the rectangle refuses the centre, and nothing is blitted on the
    screen. *)
Lemma C9_counterexample_far_body :
  (∃ b, heap far_scene.2 !! ball_body sample_ball = Some (OBody b) ∧
        body_position b = (3000000000.5, 60.2)%float ∧
        py_int (body_position b).1 = Return 3000000000 ∧
        py_int (body_position b).2 = Return 60) ∧
  (∃ w', Ball_draw sample_ball sample_screen far_scene.2
           = (Raise TypeError, w') ∧
     heap w' !! sample_screen =
       Some (OSurface (Surface_new (Int 800, Int 600) false))) ∧
  (∃ w', Projectile_draw sample_projectile sample_screen far_scene.2
           = (Raise TypeError, w') ∧
     heap w' !! sample_screen =
       Some (OSurface (Surface_new (Int 800, Int 600) false))).
Proof.
  split; [eexists; repeat split; vm_compute; reflexivity|].
  split; eexists; split; vm_compute; reflexivity.
Qed.

Lemma C3_holder_offsets_witness :
  ∃ self w',
    Lever_init (Int 200, Int 100) (Int 300) (Int 10) sample_load sample_effort
      (Float 10) sample_crates.2 = (Return self, w') ∧
    holder_local_x (lever_holder_shape2 self) w' = Some (-75, -75)%float ∧
    holder_local_x (lever_holder_shape3 self) w' = Some (85, 85)%float.
Proof.
  destruct sample_load_body as (lb & El & Pl).
  destruct sample_effort_body as (eb & Ee & Pe).
  destruct (C3_holder_offsets (Int 200, Int 100) (Int 300) (Int 10)
              sample_load sample_effort (Float 10) sample_crates.2 lb eb El Ee)
    as ((self & w' & bl & s2 & s3 & E & _ & Pb & E2 & E3 & _ & _ & X2 & X3 & _) & _).
  exists self, w'. split; [exact E|].
  unfold holder_local_x. rewrite E2, E3, X2, X3, Pl, Pe, Pb.
  split; vm_compute; reflexivity.
Defined.


Lemma C6_holder4_witness :
  ∃ self w' s4,
    Lever_init (Int 200, Int 100) (Int 300) (Int 10) sample_load sample_effort
      (Float 10) sample_crates.2 = (Return self, w') ∧
    heap w' !! lever_holder_shape4 self = Some (OShape s4) ∧
    segment_local_x (shape_geometry s4) = Some (235, 235)%float ∧
    shape_collision_type s4 = 2.
Proof.
  destruct sample_load_body as (lb & El & _).
  destruct sample_effort_body as (eb & Ee & _).
  destruct (C6_holder4 (Int 200, Int 100) (Int 300) (Int 10)
              sample_load sample_effort (Float 10) sample_crates.2 lb eb El Ee)
    as (self & w' & beam & s4 & E & _ & E4 & _ & _ & X4 & C4 & _).
  exists self, w', s4. split; [exact E|]. split; [exact E4|].
  split; [rewrite X4; vm_compute; reflexivity|exact C4].
Defined.

Lemma C7_catapult_spin_witness :
  ∃ self arm w' b,
    Catapult_init (Int 200, Int 400) (Int 150) (Int 5) empty_world
      = (Return self, w') ∧
    catapult_arm self = Some arm ∧
    heap w' !! arm_body arm = Some (OBody b) ∧
    body_angular_velocity b = 46%float ∧
    bodies (space w') = {[ arm_body arm ]}.
Proof.
  destruct (C7_catapult_spin (Int 200, Int 400) (Int 150) (Int 5) empty_world)
    as (self & arm & joint & w' & b & E & Ea & Eb & _ & _ & Ev & _ & _ & _
        & _ & _ & Hs).
  exists self, arm, w', b. repeat (split; [assumption|]).
  rewrite (proj1 (Hs eq_refl)). apply union_empty_r_L.
Defined.

Lemma C8_collision_types_witness :
  (∃ ball w' s,
     Ball_init (Int 50) (Int 60) (Int 15) sample_crates.2 = (Return ball, w') ∧
     heap w' !! ball_shape ball = Some (OShape s) ∧
     shape_collision_type s = 1) ∧
  (∃ trigger w',
     Trigger_init (Int 100, Int 200) (Int 40) (Int 20) None sample_crates.2
       = (Return trigger, w') ∧
     handlers (space w') !! (1, 99) = Some trigger).
Proof.
  destruct sample_load_body as (lb & El & _).
  destruct sample_effort_body as (eb & Ee & _).
  destruct (C8_collision_types (Int 50) (Int 60) (Int 15)
              (Int 200, Int 100) (Int 300) (Int 10)
              sample_load sample_effort (Float 10)
              (Int 100, Int 200) (Int 40) (Int 20) None
              sample_crates.2 lb eb El Ee)
    as (B & _ & (trigger & w' & s & E & _ & _ & _ & Hh)).
  split; [exact B|].
  exists trigger, w'. split; [exact E|]. rewrite Hh. apply lookup_insert_eq.
Defined.

Lemma C10_trigger_center_witness :
  ∃ self w' b s,
    sample_trigger None = (Return self, w') ∧
    heap w' !! trigger_body self = Some (OBody b) ∧
    body_position b = (120, 210)%float ∧
    heap w' !! trigger_shape self = Some (OShape s) ∧
    box_half_extents (shape_geometry s) = Some (20, 10)%float.
Proof.
  destruct (C10_trigger_center (Int 100, Int 200) Trigger_default_width
              Trigger_default_height None empty_world)
    as (self & w' & b & s & E & Eb & _ & P & Es & _ & _ & Hh & _).
  exists self, w', b, s. split; [exact E|]. split; [exact Eb|].
  split; [rewrite P; vm_compute; reflexivity|]. split; [exact Es|].
  rewrite Hh. vm_compute. reflexivity.
Defined.

Lemma C9_draw_rotates_texture_witness :
  (∃ w', Ball_draw sample_ball sample_screen sample_scene.2 = (Return tt, w') ∧
     heap w' !! sample_screen =
       Some (OSurface
               (blit (Surface_new (Int 800, Int 600) false)
                  (transform_rotate (ball_texture (Int 15)) (-90))
                  (transform_rotate (ball_texture (Int 15)) (-90))
                  (50, 60))) ∧
     heap w' !! ball_image sample_ball = Some (OSurface (ball_texture (Int 15)))) ∧
  (∃ w', Projectile_draw sample_projectile sample_screen sample_scene.2
           = (Return tt, w') ∧
     heap w' !! sample_screen =
       Some (OSurface
               (blit (Surface_new (Int 800, Int 600) false)
                  (transform_rotate (Surface_new (Float 37, Float 37) true) (-90))
                  (transform_rotate (Surface_new (Float 37, Float 37) true) (-90))
                  (50, 60)))).
Proof.
  edestruct (C9_draw_rotates_texture sample_ball sample_projectile
               sample_screen (Surface_new (Int 800, Int 600) false)
               sample_scene.2
               (mkBody DYNAMIC 10 (cpMomentForCircle (Int 10) (Int 0) (Int 15))
                  (50.7, 60.2)%float (math_pi / 2) 0)
               (ball_texture (Int 15)) 50 60
               (mkBody DYNAMIC 100 0 (50.7, 60.2)%float (math_pi / 2) 0)
               (Surface_new (Float 37, Float 37) true) 50 60)
    as ((w1 & E1 & S1 & I1 & _) & (w2 & E2 & S2 & _)).
  1-15: try (vm_compute; reflexivity); try (vm_compute; discriminate).
  split.
  - exists w1. split; [exact E1|]. split; [exact S1|exact I1].
  - exists w2. split; [exact E2|exact S2].
Defined.

(** * Further properties of the components *)

(** ** Constructors: what they create and what they leave alone *)

Ltac frame_tac :=
  let j := fresh "j" in let Hj := fresh "Hj" in
  intros j Hj; world_simpl;
  rewrite !lookup_insert_ne; [reflexivity|..];
  intros ->; apply Hj; in_list_tac.

Ltac creates_tac ND Hf :=
  split; [exact ND|]; split; [exact Hf|]; frame_tac.

Section Building.
Context `{Externals}.

(** X1.  Every ball that [Ball.__init__] returns, whatever the space holds
    and also during a step, comes with three new objects: the dynamic body
    of mass 10 at (x, y), the circle on it with friction 0.5, elasticity 1.0
    and collision type 1, and the texture; the space has been given the
    body and the shape and nothing else (queued while the space is
    stepping), and every object that existed, the handlers and the pending
    removals are as they were. *)
Theorem Ball_init_builds x y radius w self w' :
  Ball_init x y radius w = (Return self, w') →
    creates [ball_body self; ball_shape self; ball_image self] w w' ∧
    space w' = added [ball_body self] [ball_shape self] [] (space w) ∧
    heap w' !! ball_body self =
      Some (OBody (mkBody DYNAMIC 10 (moment_for_circle (Int 10) (Int 0) radius)
                     (vec (x, y)) 0 0)) ∧
    heap w' !! ball_shape self =
      Some (OShape (mkShape (ball_body self) (Circle (to_float radius))
                      0.5 1.0 0 false 1)) ∧
    heap w' !! ball_image self = Some (OSurface (ball_texture radius)) ∧
    ball_radius self = radius.
Proof.
  destruct (Ball_init_spec x y radius w) as (body & shape & image & ND & Hf & E).
  intros E'. rewrite E in E'. injection E' as <- <-.
  cbn [ball_body ball_shape ball_image ball_radius].
  split; [creates_tac ND Hf|]. split; [reflexivity|].
  split_nodup ND. cbn [heap].
  split; [lookup_tac|]. split; [lookup_tac|]. split; [lookup_tac|reflexivity].
Qed.

(** X2.  [Domino.__init__] likewise returns in every state of the space
    and creates exactly two objects: a dynamic body of mass 10 at (x, y)
    and a width by height box on it with elasticity 0.4 and friction 0.8,
    of pymunk's default collision type 0 (so not the type 1 a Trigger
    listens for); both go into the space together, nothing else changes. *)
Theorem Domino_init_builds x y width height w :
  ∃ self w',
    Domino_init x y width height w = (Return self, w') ∧
    creates [domino_body self; domino_shape self] w w' ∧
    space w' = added [domino_body self] [domino_shape self] [] (space w) ∧
    random_state w' = random_state w ∧
    heap w' !! domino_body self =
      Some (OBody (mkBody DYNAMIC 10 (moment_for_box (Int 10) (width, height))
                     (vec (x, y)) 0 0)) ∧
    heap w' !! domino_shape self =
      Some (OShape (mkShape (domino_body self) (Box (vec (width, height)))
                      0.8 0.4 0 false 0)) ∧
    domino_width self = width ∧ domino_height self = height.
Proof.
  unfold Domino_init. cbv zeta.
  step_alloc body Hbody. step.
  step_alloc shape Hshape. step. step.
  destruct (locked (space w)) eqn:Hl.
  all: step_add_shapes.
  all: eexists _, _; split; [reflexivity|].
  all: cbn [domino_body domino_shape domino_width domino_height]; world_simpl.
  all: split; [split; [nodup_tac|]; split; [fresh_ids_tac|frame_tac]|].
  all: split; [reflexivity|]; split; [reflexivity|].
  all: split; [lookup_tac|]; split; [lookup_tac|]; split; reflexivity.
Qed.

End Building.



(** ** The random module and Platform.__init__ *)

Section RandomStream.
Context `{Externals} `{Libm} `{RandInt}.






End RandomStream.

Lemma py_int_raise x e : py_int x = Raise e → e = ValueError ∨ e = OverflowError.
Proof.
  unfold py_int. destruct (Prim2SF x); intros E; inversion E; auto.
Qed.

(** ** Projectile.__init__ and its texture *)

Section ProjectileTexture.
Context `{Externals} `{Libm}.







End ProjectileTexture.

(** ** Lever.__init__ and Lever.draw *)

Lemma added_added bs ss cs sp :
  added [] [] cs (added bs ss [] sp) = added bs ss cs sp.
Proof.
  unfold added. apply space_eq; cbn; destruct (locked sp); cbn; try reflexivity.
  all: rewrite ?list_to_set_app_L, ?app_nil_r; set_solver.
Qed.

Section LeverDraw.
Context `{BodyFrame}.

Lemma segment_a_eq i s a b r w :
  heap w !! i = Some (OShape s) → shape_geometry s = Segment a b r →
  segment_a i w = (Return a, w).
Proof.
  intros E G. unfold segment_a.
  rewrite (bind_return _ _ _ _ _ (get_shape_eq _ _ _ E)), G. reflexivity.
Qed.

Lemma segment_b_eq i s a b r w :
  heap w !! i = Some (OShape s) → shape_geometry s = Segment a b r →
  segment_b i w = (Return b, w).
Proof.
  intros E G. unfold segment_b.
  rewrite (bind_return _ _ _ _ _ (get_shape_eq _ _ _ E)), G. reflexivity.
Qed.

(** [Lever.draw] reads the lever's body and its segments, and paints on the
    screen only. *)
Lemma Lever_draw_loop (lbody screen : nat) (thickness : number) b w
    (l : list nat) (segs : list (Vec2d * Vec2d)) :
  heap w !! lbody = Some (OBody b) →
  lbody ≠ screen →
  Forall2 (λ i seg, i ≠ screen ∧ ∃ s r, heap w !! i = Some (OShape s) ∧
             shape_geometry s = Segment seg.1 seg.2 r) l segs →
  ∀ target,
  for_each l (λ shape,
    body ← get_body lbody;
    sa ← segment_a shape;
    let a := local_to_world body sa in
    body ← get_body lbody;
    sb ← segment_b shape;
    let b := local_to_world body sb in
    pygame_draw_line screen DARK_BROWN a b (py_add thickness (Int 5)) ;;
    pygame_draw_line screen BROWN a b (py_add thickness (Int 3)))
    (set_heap <[screen := OSurface target]> w)
  = (Return tt,
     set_heap <[screen := OSurface (lever_strokes b thickness segs target)]> w).
Proof.
  intros Eb Hbs HF. induction HF as [|i seg l segs (Hi & s & r & Es & G) _ IH];
    intros target; [reflexivity|].
  cbn [for_each].
  assert (heap (set_heap <[screen := OSurface target]> w) !! lbody
          = Some (OBody b)) as Eb'
    by (cbn; rewrite lookup_insert_ne by neq_tac; exact Eb).
  assert (heap (set_heap <[screen := OSurface target]> w) !! i
          = Some (OShape s)) as Es'
    by (cbn; rewrite lookup_insert_ne by neq_tac; exact Es).
  rewrite bind_unfold.
  rewrite (bind_return _ _ _ _ _ (get_body_eq _ _ _ Eb')).
  rewrite (bind_return _ _ _ _ _ (segment_a_eq _ _ _ _ _ _ Es' G)).
  cbv zeta.
  rewrite (bind_return _ _ _ _ _ (get_body_eq _ _ _ Eb')).
  rewrite (bind_return _ _ _ _ _ (segment_b_eq _ _ _ _ _ _ Es' G)).
  unfold pygame_draw_line.
  erewrite (bind_return (update_surface _ _))
    by (apply update_surface_eq; cbn; apply lookup_insert_eq).
  rewrite set_heap_insert_insert.
  erewrite update_surface_eq by (cbn; apply lookup_insert_eq).
  rewrite set_heap_insert_insert.
  rewrite IH. reflexivity.
Qed.

End LeverDraw.

Section LeverBuild.
Context `{Externals} `{BodyFrame}.

(** X5.  [Lever.__init__], given a load and an effort crate whose bodies
    exist, returns in every state of the space.  It creates one body, five
    segments (the beam and the four holders, listed in [holder_shapes] in
    the order of the attributes) that all sit on that one body, and one
    pivot joint between the body and the static body at the pivot point;
    body and segments go into the space in one call, then the joint.  The
    two crates are only read: their bodies are as they were. *)
Theorem Lever_init_builds pivot_point length thickness load effort mass w lb eb :
  heap w !! crate_body load = Some (OBody lb) →
  heap w !! crate_body effort = Some (OBody eb) →
  ∃ self joint w',
    Lever_init pivot_point length thickness load effort mass w = (Return self, w') ∧
    creates (lever_body self :: lever_shape self :: lever_holder_shapes self
             ++ [joint]) w w' ∧
    space w' = added [lever_body self]
                 (lever_shape self :: lever_holder_shapes self) [joint] (space w) ∧
    lever_holder_shapes self =
      [lever_holder_shape self; lever_holder_shape2 self;
       lever_holder_shape3 self; lever_holder_shape4 self] ∧
    (∀ i, i ∈ lever_shape self :: lever_holder_shapes self →
       ∃ s a b r, heap w' !! i = Some (OShape s) ∧
         shape_body s = lever_body self ∧ shape_geometry s = Segment a b r) ∧
    (∃ b, heap w' !! lever_body self = Some (OBody b) ∧
          body_type b = DYNAMIC ∧ body_mass b = to_float mass ∧
          body_position b = vec pivot_point) ∧
    heap w' !! joint =
      Some (OConstraint (PivotJoint (lever_body self) (static_body (space w))
                           (vec pivot_point))) ∧
    heap w' !! crate_body load = Some (OBody lb) ∧
    heap w' !! crate_body effort = Some (OBody eb) ∧
    lever_load self = load ∧ lever_effort self = effort.
Proof.
  intros Hload Heffort.
  destruct (Lever_init_spec pivot_point length thickness load effort mass w lb eb
              Hload Heffort)
    as (body & shape & h1 & h2 & h3 & h4 & joint & ND & Hf & E).
  cbv zeta in E.
  eexists _, joint, _. split; [exact E|].
  cbn [lever_body lever_shape lever_holder_shapes lever_holder_shape
       lever_holder_shape2 lever_holder_shape3 lever_holder_shape4
       lever_load lever_effort app].
  assert (∀ i, i ∈ [body; shape; h1; h2; h3; h4; joint] →
            crate_body load ≠ i ∧ crate_body effort ≠ i) as Hne.
  { intros i Hi. split; intros <-; apply (Hf _ Hi); eapply lookup_used; eassumption. }
  pose proof ND as ND'. split_nodup ND'.
  split; [creates_tac ND Hf|].
  split; [cbn [space]; apply added_added|].
  split; [reflexivity|].
  split.
  { intros i Hi. cbn [heap]. unfold holder.
    repeat (apply elem_of_cons in Hi as [->|Hi]);
      [eexists _, _, _, _; split; [lookup_tac|split; reflexivity] ..|].
    apply elem_of_nil in Hi. destruct Hi. }
  split; [eexists; split; [cbn [heap]; lookup_tac|repeat split]|].
  split; [cbn [heap]; lookup_tac|].
  cbn [heap].
  split.
  { rewrite !lookup_insert_ne; [exact Hload|..];
      apply not_eq_sym, Hne; in_list_tac. }
  split; [|split; reflexivity].
  rewrite !lookup_insert_ne; [exact Heffort|..];
    apply not_eq_sym, Hne; in_list_tac.
Qed.

(** X6.  [Lever.draw] paints ten lines on the screen, two for each of the
    five segments (a dark stroke of width thickness + 5, then a brown one
    of width thickness + 3, between the same two world points), from the
    lever's own body and the segment end points fixed at construction.
    Wherever the two crates are moved after the lever was built, the
    picture is the same: the holders are not drawn where the crates are
    now.  Nothing but the screen changes. *)
Theorem Lever_draw_snapshot pivot_point length thickness load effort mass w lb eb
    screen target :
  heap w !! crate_body load = Some (OBody lb) →
  heap w !! crate_body effort = Some (OBody eb) →
  heap w !! screen = Some (OSurface target) →
  let left_length := py_mul length LEVER_LEFT_RATIO in
  let right_length := py_mul length LEVER_RIGHT_RATIO in
  let lever_x := to_float pivot_point.1 in
  let body := mkBody DYNAMIC (to_float mass)
                (moment_for_segment mass (py_neg left_length, Int 0)
                   (right_length, Int 0) thickness)
                (vec pivot_point) 0 0 in
  let segs :=
    [ (vec (py_neg left_length, Int 0), vec (right_length, Int 0));
      holder_ends (holder1_x length);
      holder_ends (holder2_x (body_position lb).1 lever_x (crate_size load));
      holder_ends (holder3_x (body_position eb).1 lever_x (crate_size effort));
      holder_ends (holder4_x length) ] in
  ∃ self w1,
    Lever_init pivot_point length thickness load effort mass w = (Return self, w1) ∧
    ∀ p q, ∃ w2 w3,
      (move_body (crate_body load) p ;; move_body (crate_body effort) q) w1
        = (Return tt, w2) ∧
      Lever_draw self screen w2 = (Return tt, w3) ∧
      heap w3 !! screen =
        Some (OSurface (lever_strokes body thickness segs target)) ∧
      paint_count (lever_strokes body thickness segs target)
        = (paint_count target + 10)%nat ∧
      (∀ j, j ≠ screen → heap w3 !! j = heap w2 !! j) ∧
      space w3 = space w2.
Proof.
  intros Hload Heffort Hscreen left_length right_length lever_x lbody segs.
  destruct (Lever_init_spec pivot_point length thickness load effort mass w lb eb
              Hload Heffort)
    as (body & shape & h1 & h2 & h3 & h4 & joint & ND & Hf & E).
  cbv zeta in E.
  match type of E with _ = (_, ?W) => set (w1 := W) in * end.
  eexists _, w1. split; [exact E|]. intros p q.
  assert (∀ i, i ∈ [body; shape; h1; h2; h3; h4; joint] →
            crate_body load ≠ i ∧ crate_body effort ≠ i ∧ screen ≠ i) as Hne.
  { intros i Hi. repeat split; intros <-; apply (Hf _ Hi); eapply lookup_used;
      eassumption. }
  assert (crate_body load ≠ screen ∧ crate_body effort ≠ screen) as (Hls & Hes).
  { split; intros Eq; rewrite Eq in *; congruence. }
  pose proof ND as ND'. split_nodup ND'.
  assert (heap w1 !! crate_body load = Some (OBody lb)) as Hload1.
  { unfold w1. cbn [heap]. rewrite !lookup_insert_ne; [exact Hload|..];
      apply not_eq_sym, Hne; in_list_tac. }
  destruct (move_body_frame _ p _ _ Hload1) as (wa & Ea & Hsa & Hla & Hfa).
  assert (∃ eb', heap wa !! crate_body effort = Some (OBody eb')) as (eb' & Heff).
  { destruct (decide (crate_body load = crate_body effort)) as [Eq|Nq].
    - rewrite <- Eq. eexists. exact Hla.
    - exists eb. rewrite Hfa by exact Nq. unfold w1. cbn [heap].
      rewrite !lookup_insert_ne; [exact Heffort|..];
        apply not_eq_sym, Hne; in_list_tac. }
  destruct (move_body_frame _ q _ _ Heff) as (w2 & Eb & Hsb & Hlb & Hfb).
  assert (∀ j, crate_body load ≠ j → crate_body effort ≠ j →
            heap w2 !! j = heap w1 !! j) as Hfr.
  { intros j Hj1 Hj2. rewrite Hfb by exact Hj2. apply Hfa. exact Hj1. }
  assert (∀ i, i ∈ [body; shape; h1; h2; h3; h4; joint] →
            heap w2 !! i = heap w1 !! i) as Hnew.
  { intros i Hi. destruct (Hne i Hi) as (? & ? & _). apply Hfr; assumption. }
  assert (heap w2 !! screen = Some (OSurface target)) as Hscreen2.
  { rewrite Hfr by assumption. unfold w1. cbn [heap].
    rewrite !lookup_insert_ne; [exact Hscreen|..];
      apply not_eq_sym, Hne; in_list_tac. }
  assert (w2 = set_heap <[screen := OSurface target]> w2) as Ew2.
  { apply world_eq; try reflexivity. cbn. symmetry. apply insert_id, Hscreen2. }
  exists w2,
    (set_heap <[screen := OSurface (lever_strokes lbody thickness segs target)]> w2).
  split; [rewrite (bind_return _ _ _ _ _ Ea); exact Eb|].
  split.
  - unfold Lever_draw.
    cbn [lever_body lever_shape lever_holder_shapes lever_thickness].
    rewrite Ew2 at 1.
    apply Lever_draw_loop.
    + rewrite (Hnew body) by in_list_tac. unfold w1. cbn [heap]. lookup_tac.
    + apply not_eq_sym, Hne. in_list_tac.
    + unfold segs, holder_ends.
      repeat (constructor;
              [split; [apply not_eq_sym, Hne; in_list_tac|];
               eexists _, _; split;
               [rewrite Hnew by in_list_tac; unfold w1; cbn [heap]; lookup_tac
               |reflexivity]|]).
      constructor.
  - cbn [heap set_heap space set_space].
    split; [apply lookup_insert_eq|].
    split; [cbn; lia|].
    split; [|reflexivity].
    intros j Hj. apply lookup_insert_ne. apply not_eq_sym, Hj.
Qed.

End LeverBuild.

(** ** Catapult.create_arm called again *)

Section CatapultArm.
Context `{Externals}.

Lemma Catapult_create_arm_spec (self : Catapult) w :
  let L := catapult_stick_length self in
  let t := catapult_stick_thickness self in
  ∃ body arm s1 s2 joint,
    NoDup [body; arm; s1; s2; joint] ∧
    (∀ i, i ∈ [body; arm; s1; s2; joint] → i ∉ used w) ∧
    Catapult_create_arm self w =
    (Return (mkCatapult (catapult_pivot self) L t (catapult_mass self)
               (catapult_base_w self) (catapult_base_h self)
               (catapult_moment self)
               (Some (mkCatapultArm body arm s1 s2))),
     mkWorld
       (<[joint := OConstraint (PivotJoint body (static_body (space w))
                      (vec (catapult_pivot self)))]>
        (<[s2 := OShape (mkShape body
                      (Segment (vec (py_add (py_neg L) (Int 20), Int 0))
                         (vec (py_add (py_neg L) (Int 35), Int (-25)))
                         (to_float t)) 0.5 0.2 0 false 0)]>
        (<[s1 := OShape (mkShape body
                      (Segment (vec (py_neg L, Int 0))
                         (vec (py_sub (py_neg L) (Int 15), Int (-25)))
                         (to_float t)) 0.5 0.2 0 false 0)]>
        (<[arm := OShape (mkShape body
                      (Segment (vec (Int 0, Int 0)) (vec (py_neg L, Int 0))
                         (to_float t)) 0.8 0 0 false 0)]>
        (<[body := OBody (mkBody DYNAMIC (to_float (catapult_mass self))
                      (catapult_moment self) (vec (catapult_pivot self)) 0 46)]>
           (heap w))))))
       (added [] [] [joint] (added [body] [arm; s1; s2] [] (space w)))
       (random_state w)).
Proof.
  cbv zeta. unfold Catapult_create_arm, new_segment. cbv zeta.
  step_alloc body Fb. step. step.
  step_alloc arm Fa. step.
  step_alloc s1 Fc. step. step.
  step_alloc s2 Fd. step. step.
  destruct (locked (space w)) eqn:Hl.
  all: step_add_shapes; step.
  all: step_alloc joint Fj.
  all: step_add_constraint.
  all: exists body, arm, s1, s2, joint; finish_spec.
Qed.

(** X7.  [Catapult.create_arm] does not replace an arm, it adds one: called
    on a catapult that [__init__] has built, it creates a second dynamic
    body of the same mass 500 and moment at the pivot, with angular
    velocity 46, three more segments and a second pivot joint, and rebinds
    the attributes to them, while the first body, its segments and its
    joint stay in the space. *)
Theorem Catapult_create_arm_again pivot stick_length stick_thickness w :
  ∃ self self' old new j1 j2 w',
    (self ← Catapult_init pivot stick_length stick_thickness;
     self' ← Catapult_create_arm self;
     mret (self, self')) w = (Return (self, self'), w') ∧
    catapult_arm self = Some old ∧ catapult_arm self' = Some new ∧
    NoDup [arm_body old; arm_shape old; stopper_shape old; stopper_shape2 old; j1;
           arm_body new; arm_shape new; stopper_shape new; stopper_shape2 new; j2] ∧
    (∀ i, i ∈ [arm_body old; arm_body new] →
       ∃ b, heap w' !! i = Some (OBody b) ∧
            body_type b = DYNAMIC ∧ body_mass b = 500%float ∧
            body_moment b = catapult_moment self ∧
            body_position b = vec pivot ∧
            body_angular_velocity b = 46%float) ∧
    catapult_moment self' = catapult_moment self ∧
    heap w' !! j1 = Some (OConstraint
      (PivotJoint (arm_body old) (static_body (space w)) (vec pivot))) ∧
    heap w' !! j2 = Some (OConstraint
      (PivotJoint (arm_body new) (static_body (space w)) (vec pivot))) ∧
    space w' =
      added [arm_body new]
        [arm_shape new; stopper_shape new; stopper_shape2 new] [j2]
        (added [arm_body old]
           [arm_shape old; stopper_shape old; stopper_shape2 old] [j1]
           (space w)) ∧
    (locked (space w) = false →
     bodies (space w') = {[ arm_body old; arm_body new ]} ∪ bodies (space w) ∧
     constraints (space w') = {[ j1; j2 ]} ∪ constraints (space w)).
Proof.
  unfold Catapult_init. cbv zeta.
  set (self0 := mkCatapult _ _ _ _ _ _ _ _).
  destruct (Catapult_create_arm_spec self0 w)
    as (b1 & a1 & s1 & t1 & j1 & ND1 & Hf1 & E1).
  cbv zeta in E1. cbn [catapult_pivot catapult_stick_length
    catapult_stick_thickness catapult_mass catapult_base_w catapult_base_h
    catapult_moment self0] in E1.
  match type of E1 with _ = (Return ?S, ?W) => set (self1 := S) in *;
    set (w1 := W) in * end.
  destruct (Catapult_create_arm_spec self1 w1)
    as (b2 & a2 & s2 & t2 & j2 & ND2 & Hf2 & E2).
  cbv zeta in E2. cbn [catapult_pivot catapult_stick_length
    catapult_stick_thickness catapult_mass catapult_base_w catapult_base_h
    catapult_moment self1] in E2.
  eexists _, _, (mkCatapultArm b1 a1 s1 t1), (mkCatapultArm b2 a2 s2 t2), j1, j2, _.
  rewrite (bind_return _ _ _ _ _ E1), (bind_return _ _ _ _ _ E2).
  split; [reflexivity|]. split; [reflexivity|]. split; [reflexivity|].
  cbn [arm_body arm_shape stopper_shape stopper_shape2].
  assert (∀ i j, i ∈ [b2; a2; s2; t2; j2] → j ∈ [b1; a1; s1; t1; j1] → j ≠ i)
    as Hne.
  { intros i j Hi Hj <-. apply (Hf2 _ Hi).
    assert (∃ o, heap w1 !! j = Some o) as (o & Eo).
    { pose proof ND1 as ND. split_nodup ND. unfold w1. cbn [heap].
      repeat (apply elem_of_cons in Hj as [->|Hj]);
        [eexists; lookup_tac ..|apply elem_of_nil in Hj; destruct Hj]. }
    eapply lookup_used, Eo. }
  assert (NoDup ([b1; a1; s1; t1; j1] ++ [b2; a2; s2; t2; j2])) as ND.
  { apply NoDup_app. split; [exact ND1|]. split; [|exact ND2].
    intros j Hj Hi. exact (Hne _ _ Hi Hj eq_refl). }
  cbn [app] in ND. split; [exact ND|].
  split_nodup ND. unfold w1. cbn [heap space static_body added].
  split.
  { intros i Hi. repeat (apply elem_of_cons in Hi as [->|Hi]);
      [eexists; split; [lookup_tac|repeat split] ..
      |apply elem_of_nil in Hi; destruct Hi]. }
  split; [reflexivity|].
  split; [lookup_tac|]. split; [lookup_tac|].
  split; [rewrite !added_added; reflexivity|].
  intros Hl. rewrite !added_added. unfold added.
  cbn [bodies constraints locked list_to_set]. rewrite Hl.
  clear. split; set_solver.
Qed.

End CatapultArm.

(** ** Triggers and the step *)

Lemma elements_pair (b s : nat) (X : gset nat) :
  b ≠ s → X = {[ b ]} ∪ {[ s ]} →
  elements X = [b; s] ∨ elements X = [s; b].
Proof.
  intros Hbs ->. apply Permutation_length_2_inv.
  symmetry. rewrite elements_union_singleton by set_solver.
  rewrite elements_singleton. reflexivity.
Qed.

Lemma space_add_nil w :
  locked (space w) = false → space_add [] w = (Return tt, w).
Proof.
  intros Hl. unfold space_add. rewrite bind_unfold. cbn [gets]. cbv beta iota.
  rewrite Hl. reflexivity.
Qed.

Lemma space_add_shape_body b s bo sh w :
  locked (space w) = false →
  heap w !! b = Some (OBody bo) → heap w !! s = Some (OShape sh) →
  shape_body sh = b →
  b ∉ bodies (space w) → s ∉ shapes (space w) →
  space_add [s; b] w = (Return tt, set_space (added [b] [s] []) w).
Proof.
  intros Hl Eb Es Hsb Hb Hs.
  unfold space_add. rewrite bind_unfold. cbn [gets]. cbv beta iota. rewrite Hl.
  rewrite bind_unfold. cbn [for_each].
  rewrite bind_unfold, bind_unfold. cbn [gets]. rewrite Es. cbv beta iota.
  cbn [mret M_ret].
  rewrite bind_unfold, bind_unfold. cbn [gets]. rewrite Eb. cbv beta iota.
  rewrite _add_body_eq by assumption. cbn [mret M_ret].
  rewrite bind_unfold, bind_unfold. cbn [gets heap set_space]. rewrite Es.
  cbv beta iota.
  rewrite _add_shape_eq by (cbn; first [assumption | left; rewrite Hsb; set_solver]).
  rewrite bind_unfold, bind_unfold. cbn [gets heap set_space]. rewrite Eb.
  cbv beta iota. cbn [mret M_ret].
  f_equal. apply world_eq; try reflexivity. cbn [space set_space].
  apply space_eq; cbn; rewrite ?Hl; try reflexivity; set_solver.
Qed.

Lemma space_remove_body b bo w :
  locked (space w) = false → heap w !! b = Some (OBody bo) →
  space_remove [b] w = _remove_body b w.
Proof.
  intros Hl Eb. unfold space_remove. rewrite bind_unfold. cbn [gets].
  cbv beta iota. rewrite Hl. cbn [for_each].
  rewrite bind_unfold, bind_unfold. cbn [gets]. rewrite Eb. cbv beta iota.
  destruct (_remove_body b w) as [[[]|e] w']; reflexivity.
Qed.

Lemma space_remove_shape s sh w :
  locked (space w) = false → heap w !! s = Some (OShape sh) →
  space_remove [s] w = _remove_shape s w.
Proof.
  intros Hl Es. unfold space_remove. rewrite bind_unfold. cbn [gets].
  cbv beta iota. rewrite Hl. cbn [for_each].
  rewrite bind_unfold, bind_unfold. cbn [gets]. rewrite Es. cbv beta iota.
  destruct (_remove_shape s w) as [[[]|e] w']; reflexivity.
Qed.

Lemma _remove_shape_absent i w :
  i ∉ shapes (space w) →
  _remove_shape i w =
  (Raise (AssertionError "shape not in space, already removed?"), w).
Proof.
  intros E. unfold _remove_shape. rewrite bind_unfold. cbn.
  rewrite bind_unfold, assert_false by (apply bool_decide_eq_false; exact E).
  reflexivity.
Qed.

(** A new body and its shape, queued during the step, enter the space when
    the step ends. *)
Lemma space_end_step_adds b s bo sh w :
  add_later (space w) = {[ b ]} ∪ {[ s ]} →
  remove_later (space w) = ∅ →
  heap w !! b = Some (OBody bo) → heap w !! s = Some (OShape sh) →
  shape_body sh = b →
  b ∉ bodies (space w) → s ∉ shapes (space w) →
  space_end_step w =
  (Return tt,
   set_space (settled ({[ b ]} ∪ bodies (space w)) ({[ s ]} ∪ shapes (space w))) w).
Proof.
  intros Ha Hr Eb Es Hsb Hb Hs.
  assert (b ≠ s) as Hbs by (intros ->; rewrite Eb in Es; discriminate).
  unfold space_end_step.
  rewrite (bind_return (modify _) _ _ _ _ eq_refl).
  rewrite (bind_return (gets _) _ _ _ _ eq_refl). cbv beta.
  cbn [space set_space set_locked add_later].
  destruct (elements_pair b s _ Hbs Ha) as [-> | ->].
  - erewrite (bind_return (space_add _)).
    2:{ apply space_add_body_shapes; cbn; try assumption; try reflexivity.
        - eexists; exact Eb.
        - apply NoDup_singleton.
        - intros i Hi. apply list_elem_of_singleton in Hi as ->.
          split; [exact Hs|]. exists sh. split; [exact Es|exact Hsb]. }
    rewrite (bind_return (modify _) _ _ _ _ eq_refl).
    rewrite (bind_return (gets _) _ _ _ _ eq_refl). cbv beta.
    cbn [space set_space set_locked set_add_later added remove_later locked].
    rewrite Hr, elements_empty. cbn [for_each].
    rewrite (bind_return (mret tt) _ _ _ _ eq_refl).
    unfold modify. f_equal. apply world_eq; try reflexivity.
    apply space_eq; cbn; try reflexivity; set_solver.
  - erewrite (bind_return (space_add _)).
    2:{ eapply space_add_shape_body; cbn; try eassumption; reflexivity. }
    rewrite (bind_return (modify _) _ _ _ _ eq_refl).
    rewrite (bind_return (gets _) _ _ _ _ eq_refl). cbv beta.
    cbn [space set_space set_locked set_add_later added remove_later locked].
    rewrite Hr, elements_empty. cbn [for_each].
    rewrite (bind_return (mret tt) _ _ _ _ eq_refl).
    unfold modify. f_equal. apply world_eq; try reflexivity.
    apply space_eq; cbn; try reflexivity; set_solver.
Qed.

(** A registered body and shape, queued for removal during the step, leave
    the space when the step ends. *)
Lemma space_end_step_removes b s bo sh w :
  add_later (space w) = ∅ →
  remove_later (space w) = {[ b ]} ∪ {[ s ]} →
  heap w !! b = Some (OBody bo) → heap w !! s = Some (OShape sh) →
  b ∈ bodies (space w) → s ∈ shapes (space w) →
  space_end_step w =
  (Return tt,
   set_space (settled (bodies (space w) ∖ {[ b ]}) (shapes (space w) ∖ {[ s ]})) w).
Proof.
  intros Ha Hr Eb Es Hb Hs.
  assert (b ≠ s) as Hbs by (intros ->; rewrite Eb in Es; discriminate).
  unfold space_end_step.
  rewrite (bind_return (modify _) _ _ _ _ eq_refl).
  rewrite (bind_return (gets _) _ _ _ _ eq_refl). cbv beta.
  cbn [space set_space set_locked add_later].
  rewrite Ha, elements_empty.
  rewrite (bind_return (space_add _) _ _ _ _ (space_add_nil (set_space (set_locked false) w) eq_refl)).
  rewrite (bind_return (modify _) _ _ _ _ eq_refl).
  rewrite (bind_return (gets _) _ _ _ _ eq_refl). cbv beta.
  cbn [space set_space set_locked set_add_later remove_later].
  destruct (elements_pair b s _ Hbs Hr) as [-> | ->]; cbn [for_each].
  - rewrite bind_unfold, bind_unfold.
    rewrite (space_remove_body b bo) by (cbn; first [reflexivity|assumption]).
    rewrite _remove_body_eq by (cbn; assumption).
    rewrite bind_unfold.
    rewrite (space_remove_shape s sh) by (cbn; first [reflexivity|assumption]).
    rewrite _remove_shape_eq by (cbn; assumption).
    cbn [mret M_ret]. unfold modify. reflexivity.
  - rewrite bind_unfold, bind_unfold.
    rewrite (space_remove_shape s sh) by (cbn; first [reflexivity|assumption]).
    rewrite _remove_shape_eq by (cbn; assumption).
    rewrite bind_unfold.
    rewrite (space_remove_body b bo) by (cbn; first [reflexivity|assumption]).
    rewrite _remove_body_eq by (cbn; assumption).
    cbn [mret M_ret]. unfold modify. reflexivity.
Qed.

(** Queued for removal but no longer in the space: the end of the step
    fails on the first of the two, with the space unlocked and nothing
    taken out of it. *)
Lemma space_end_step_fails b s bo sh w :
  add_later (space w) = ∅ →
  remove_later (space w) = {[ b ]} ∪ {[ s ]} →
  heap w !! b = Some (OBody bo) → heap w !! s = Some (OShape sh) →
  b ∉ bodies (space w) → s ∉ shapes (space w) →
  ∃ msg w',
    space_end_step w = (Raise (AssertionError msg), w') ∧
    heap w' = heap w ∧
    locked (space w') = false ∧
    bodies (space w') = bodies (space w) ∧
    shapes (space w') = shapes (space w) ∧
    handlers (space w') = handlers (space w).
Proof.
  intros Ha Hr Eb Es Hb Hs.
  enough (∃ msg, space_end_step w =
            (Raise (AssertionError msg), set_space (set_locked false) w))
    as (msg & E) by (exists msg; eexists; split; [exact E|repeat split]).
  assert (b ≠ s) as Hbs by (intros ->; rewrite Eb in Es; discriminate).
  unfold space_end_step.
  rewrite (bind_return (modify _) _ _ _ _ eq_refl).
  rewrite (bind_return (gets _) _ _ _ _ eq_refl). cbv beta.
  cbn [space set_space set_locked add_later].
  rewrite Ha, elements_empty.
  rewrite (bind_return (space_add _) _ _ _ _ (space_add_nil (set_space (set_locked false) w) eq_refl)).
  rewrite (bind_return (modify _) _ _ _ _ eq_refl).
  rewrite (bind_return (gets _) _ _ _ _ eq_refl). cbv beta.
  cbn [space set_space set_locked set_add_later remove_later].
  assert (set_space (set_add_later (λ _, ∅)) (set_space (set_locked false) w)
          = set_space (set_locked false) w) as Ew.
  { apply world_eq; try reflexivity. apply space_eq; cbn; try reflexivity.
    symmetry. exact Ha. }
  destruct (elements_pair b s _ Hbs Hr) as [-> | ->]; cbn [for_each].
  - eexists. rewrite bind_unfold, bind_unfold.
    rewrite (space_remove_body b bo) by (cbn; first [reflexivity|assumption]).
    rewrite _remove_body_absent by (cbn; assumption).
    rewrite Ew. reflexivity.
  - eexists. rewrite bind_unfold, bind_unfold.
    rewrite (space_remove_shape s sh) by (cbn; first [reflexivity|assumption]).
    rewrite _remove_shape_absent by (cbn; assumption).
    rewrite Ew. reflexivity.
Qed.

Lemma union_difference_fresh (x : nat) (X : gset nat) :
  x ∉ X → (list_to_set [x] ∪ X) ∖ {[ x ]} = X.
Proof. cbn. set_solver. Qed.

(** X8.  Outside a step, constructing a trigger and calling [remove()] on
    it gives the space back its bodies, shapes and constraints as they
    were; the two objects still exist, and what stays behind is the
    handler for the pair (1, 99), bound to the removed trigger:
    [remove()] does not unregister it. *)
Theorem Trigger_init_remove position width height on_trigger w :
  locked (space w) = false →
  ∃ self w',
    (self ← Trigger_init position width height on_trigger;
     Trigger_remove self ;; mret self) w = (Return self, w') ∧
    creates [trigger_body self; trigger_shape self] w w' ∧
    (∃ b s, heap w' !! trigger_body self = Some (OBody b) ∧
            heap w' !! trigger_shape self = Some (OShape s)) ∧
    bodies (space w') = bodies (space w) ∧
    shapes (space w') = shapes (space w) ∧
    constraints (space w') = constraints (space w) ∧
    add_later (space w') = add_later (space w) ∧
    remove_later (space w') = remove_later (space w) ∧
    handlers (space w') = <[(1, 99) := self]> (handlers (space w)).
Proof.
  intros Hl.
  destruct (Trigger_init_spec position width height on_trigger w)
    as (body & shape & ND & Hf & E).
  cbv zeta in E.
  set (self := mkTrigger position width height on_trigger body shape) in *.
  pose proof (Hf body ltac:(in_list_tac)) as Fb.
  pose proof (Hf shape ltac:(in_list_tac)) as Fs.
  pose proof ND as ND'. split_nodup ND'.
  exists self. eexists.
  rewrite (bind_return _ _ _ _ _ E).
  erewrite (bind_return (Trigger_remove self)).
  2:{ apply Trigger_remove_registered.
      - cbn. rewrite Hl. reflexivity.
      - split; [|split; [|split]]; cbn; rewrite ?Hl.
        + eexists. lookup_tac.
        + eexists. lookup_tac.
        + set_solver.
        + set_solver. }
  split; [reflexivity|].
  unfold deregistered. cbn [trigger_body trigger_shape self]. world_simpl.
  rewrite Hl.
  split; [creates_tac ND Hf|].
  split; [eexists _, _; split; lookup_tac|].
  split; [apply union_difference_fresh, not_used_bodies, Fb|].
  split; [apply union_difference_fresh, not_used_shapes, Fs|].
  split; [cbn; apply (left_id_L ∅ (∪))|]. repeat split.
Qed.


Section Contacts.
Context `{Callbacks}.

(** X9.  The handler table has one entry for the pair (1, 99), and every
    [Trigger.__init__] writes it.  After two triggers have been built in
    one space, both sensors carry collision type 99, but the entry is the
    second trigger's: whichever sensor a ball touches, the contact runs the
    second trigger's handler, with its callback and its [remove()]. *)
Theorem second_trigger_takes_over p1 wd1 ht1 f1 p2 wd2 ht2 f2 w :
  ∃ t1 t2 w',
    (t1 ← Trigger_init p1 wd1 ht1 f1;
     t2 ← Trigger_init p2 wd2 ht2 f2;
     mret (t1, t2)) w = (Return (t1, t2), w') ∧
    NoDup [trigger_body t1; trigger_shape t1; trigger_body t2; trigger_shape t2] ∧
    (∀ i, i ∈ [trigger_shape t1; trigger_shape t2] →
       ∃ s, heap w' !! i = Some (OShape s) ∧
            shape_collision_type s = 99 ∧ shape_sensor s = true) ∧
    trigger_on_trigger t1 = f1 ∧ trigger_on_trigger t2 = f2 ∧
    handlers (space w') !! (1, 99) = Some t2 ∧
    ∀ arbiter data w'',
      handlers (space w'') = handlers (space w') →
      fire_begin 1 99 arbiter data w'' =
      (r ← Trigger_handle_collision t2 arbiter data; mret (Some r)) w''.
Proof.
  destruct (Trigger_init_spec p1 wd1 ht1 f1 w) as (b1 & s1 & ND1 & Hf1 & E1).
  cbv zeta in E1.
  match type of E1 with _ = (_, ?W) => set (w1 := W) in * end.
  destruct (Trigger_init_spec p2 wd2 ht2 f2 w1) as (b2 & s2 & ND2 & Hf2 & E2).
  cbv zeta in E2.
  eexists _, _, _.
  rewrite (bind_return _ _ _ _ _ E1), (bind_return _ _ _ _ _ E2).
  split; [reflexivity|]. cbn [trigger_body trigger_shape trigger_on_trigger].
  assert (heap w1 !! b1 ≠ None ∧ heap w1 !! s1 ≠ None) as (U1 & U2).
  { split_nodup ND1. unfold w1. cbn [heap].
    rewrite lookup_insert_ne, !lookup_insert_eq by neq_tac. split; discriminate. }
  assert (∀ i j, i ∈ [b2; s2] → heap w1 !! j ≠ None → i ≠ j) as Hne.
  { intros i j Hi Hj ->. apply (Hf2 j Hi).
    destruct (heap w1 !! j) as [o|] eqn:Ej; [|contradiction].
    eapply lookup_used, Ej. }
  pose proof (Hne b2 b1 ltac:(in_list_tac) U1).
  pose proof (Hne b2 s1 ltac:(in_list_tac) U2).
  pose proof (Hne s2 b1 ltac:(in_list_tac) U1).
  pose proof (Hne s2 s1 ltac:(in_list_tac) U2).
  split_nodup ND1. split_nodup ND2.
  split; [nodup_tac|].
  split.
  { intros i Hi. unfold w1. cbn [heap].
    repeat (apply elem_of_cons in Hi as [->|Hi]).
    - eexists. split; [lookup_tac|]. split; reflexivity.
    - eexists. split; [lookup_tac|]. split; reflexivity.
    - apply elem_of_nil in Hi. destruct Hi. }
  split; [reflexivity|]. split; [reflexivity|].
  assert (handlers (set_handlers
            <[(1, 99) := mkTrigger p2 wd2 ht2 f2 b2 s2]>
            (added [b2] [s2] [] (space w1))) !! (1, 99)
          = Some (mkTrigger p2 wd2 ht2 f2 b2 s2)) as Hh
    by (cbn; apply lookup_insert_eq).
  split; [exact Hh|].
  intros arbiter data w'' Hw. unfold fire_begin.
  rewrite bind_unfold. cbn [gets]. rewrite Hw. cbn [space]. rewrite Hh.
  reflexivity.
Qed.

End Contacts.

Section Deferred.
Context `{Externals}.

(** X10.  A crate constructed while the space is stepping (from a collision
    callback, with nothing else queued) is not in the space when the
    constructor returns: [space.add] only queues its body and shape.  They
    enter the space together when the step ends, whatever order the queue
    is walked in, and the queues are empty again. *)
Theorem Crate_init_during_step position mass w :
  locked (space w) = true →
  add_later (space w) = ∅ → remove_later (space w) = ∅ →
  ∃ self w1 w2,
    Crate_init position mass w = (Return self, w1) ∧
    bodies (space w1) = bodies (space w) ∧
    shapes (space w1) = shapes (space w) ∧
    crate_body self ∉ bodies (space w1) ∧
    crate_shape self ∉ shapes (space w1) ∧
    space_end_step w1 = (Return tt, w2) ∧
    heap w2 = heap w1 ∧
    space w2 = settled ({[ crate_body self ]} ∪ bodies (space w))
                 ({[ crate_shape self ]} ∪ shapes (space w)) (space w).
Proof.
  intros Hl Ha Hr.
  destruct (Crate_init_spec position mass w) as (body & shape & ND & Hf & E).
  cbv zeta in E.
  pose proof (Hf body ltac:(in_list_tac)) as Fb.
  pose proof (Hf shape ltac:(in_list_tac)) as Fs.
  split_nodup ND.
  match type of E with _ = (_, ?W) => set (w1 := W) in * end.
  assert (space w1 = set_add_later (λ _, {[ body ]} ∪ {[ shape ]}) (space w)) as Es.
  { unfold w1. cbn [space]. apply space_eq; cbn; rewrite ?Hl; try reflexivity.
    rewrite Ha. clear. set_solver. }
  eexists _, w1, _. split; [exact E|]. cbn [crate_body crate_shape].
  rewrite Es. cbn [bodies shapes set_add_later].
  split; [reflexivity|]. split; [reflexivity|].
  split; [apply not_used_bodies, Fb|]. split; [apply not_used_shapes, Fs|].
  split.
  - eapply space_end_step_adds.
    + rewrite Es. reflexivity.
    + rewrite Es. exact Hr.
    + unfold w1. lookup_tac.
    + unfold w1. lookup_tac.
    + reflexivity.
    + rewrite Es. apply not_used_bodies, Fb.
    + rewrite Es. apply not_used_shapes, Fs.
  - split; [reflexivity|]. cbn [space set_space]. rewrite Es. reflexivity.
Qed.

End Deferred.

Lemma pair_set (b s : nat) : list_to_set [b; s] ∪ (∅ : gset nat) = {[ b ]} ∪ {[ s ]}.
Proof. cbn. set_solver. Qed.

Section SameStep.
Context `{Callbacks}.

Lemma fire_begin_effect self arbiter data effect w :
  locked (space w) = true →
  handlers (space w) !! (1, 99) = Some self →
  run_on_trigger self arbiter data w = (Return tt, effect arbiter data w) →
  space (effect arbiter data w) = space w →
  fire_begin 1 99 arbiter data w =
  (Return (Some false), removal_queued self (effect arbiter data w)).
Proof.
  intros Hl Hh Hc Hs.
  unfold fire_begin. rewrite bind_unfold. cbn [gets]. rewrite Hh. cbv beta iota.
  unfold Trigger_handle_collision. fold (run_on_trigger self arbiter data).
  rewrite bind_unfold, bind_unfold, Hc, bind_unfold.
  rewrite Trigger_remove_locked by (rewrite Hs; exact Hl). reflexivity.
Qed.

Section Handled.
Variables (self : Trigger) (effect : Arbiter → Data → World → World).

Lemma handled_cons c contacts w :
  handled self effect (c :: contacts) w =
  handled self effect contacts (removal_queued self (effect c.1 c.2 w)).
Proof. reflexivity. Qed.

Lemma handled_space contacts w :
  keeps_trigger self effect →
  space (handled self effect contacts w) =
  match contacts with
  | [] => space w
  | _ :: _ => space (removal_queued self w)
  end.
Proof.
  intros Hframe.
  revert w. induction contacts as [|c cs IH]; intros w; [reflexivity|].
  rewrite handled_cons, IH. destruct cs as [|c' cs].
  - cbn. rewrite (proj1 (Hframe _ _ _)). reflexivity.
  - cbn. rewrite (proj1 (Hframe _ _ _)).
    apply space_eq; try reflexivity. cbn. set_solver.
Qed.

Lemma handled_heap contacts w :
  keeps_trigger self effect →
  heap (handled self effect contacts w) !! trigger_body self
    = heap w !! trigger_body self ∧
  heap (handled self effect contacts w) !! trigger_shape self
    = heap w !! trigger_shape self.
Proof.
  intros Hframe.
  revert w. induction contacts as [|c cs IH]; intros w; [split; reflexivity|].
  rewrite handled_cons.
  destruct (IH (removal_queued self (effect c.1 c.2 w))) as (E1 & E2).
  destruct (Hframe c.1 c.2 w) as (_ & F1 & F2).
  rewrite E1, E2. cbn [removal_queued set_space heap]. split; assumption.
Qed.

Lemma map_each_fire contacts w :
  (∀ a d w0, run_on_trigger self a d w0 = (Return tt, effect a d w0)) →
  keeps_trigger self effect →
  locked (space w) = true →
  handlers (space w) !! (1, 99) = Some self →
  map_each contacts (λ c, fire_begin 1 99 c.1 c.2) w =
  (Return (map (λ _, Some false) contacts), handled self effect contacts w).
Proof.
  intros Hcall Hframe.
  revert w. induction contacts as [|c cs IH]; intros w Hl Hh; [reflexivity|].
  rewrite handled_cons. cbn [map_each map].
  rewrite (bind_return _ _ _ _ _
             (fire_begin_effect self c.1 c.2 effect w Hl Hh (Hcall _ _ _)
                (proj1 (Hframe _ _ _)))).
  rewrite (bind_return (map_each cs _) _ _ _ _ (IH
            (removal_queued self (effect c.1 c.2 w))
            ltac:(cbn; rewrite (proj1 (Hframe _ _ _)); exact Hl)
            ltac:(cbn; rewrite (proj1 (Hframe _ _ _)); exact Hh))).
  reflexivity.
Qed.

End Handled.


Lemma contacts_step_eq self effect contacts w :
  contacts ≠ [] →
  locked (space w) = false →
  add_later (space w) = ∅ → remove_later (space w) = ∅ →
  registered self w →
  handlers (space w) !! (1, 99) = Some self →
  (∀ a d w0, run_on_trigger self a d w0 = (Return tt, effect a d w0)) →
  keeps_trigger self effect →
  let w1 := handled self effect contacts (set_space (set_locked true) w) in
  contacts_step 1 99 contacts w =
  (Return (map (λ _, Some false) contacts),
   mkWorld (heap w1) (space (deregistered self w)) (random_state w1)).
Proof.
  intros Hne Hl Ha Hr ((b & Eb) & (s & Es) & Hb & Hs) Hh Hcall Hframe w1.
  unfold contacts_step, space_begin_step.
  rewrite (bind_return (modify _) _ _ _ _ eq_refl).
  rewrite (bind_return _ _ _ _ _
             (map_each_fire self effect contacts
                (set_space (set_locked true) w) Hcall Hframe eq_refl Hh)).
  fold w1.
  assert (space w1 = space (removal_queued self (set_space (set_locked true) w)))
    as Esp.
  { unfold w1. rewrite (handled_space self effect _ _ Hframe).

    destruct contacts; [contradiction|reflexivity]. }
  destruct (handled_heap self effect contacts
              (set_space (set_locked true) w) Hframe) as (Hhb & Hhs).
  fold w1 in Hhb, Hhs. cbn [heap set_space] in Hhb, Hhs.
  erewrite (bind_return space_end_step).
  2:{ eapply (space_end_step_removes (trigger_body self) (trigger_shape self)).
      - rewrite Esp. exact Ha.
      - rewrite Esp.
        cbn [removal_queued space set_space set_remove_later remove_later set_locked].
        rewrite Hr. apply pair_set.
      - rewrite Hhb. exact Eb.
      - rewrite Hhs. exact Es.
      - rewrite Esp. exact Hb.
      - rewrite Esp. exact Hs. }
  cbn [mret M_ret]. f_equal. apply world_eq; try reflexivity.
  cbn [space set_space]. rewrite Esp.
  apply space_eq; cbn; try reflexivity; symmetry; assumption.
Qed.

(** X11.  One step in which one or more contacts for the pair (1, 99) are
    reported on a registered trigger whose callback returns and leaves the
    space and the trigger's objects alone: the handler runs once per
    contact, so the callback's effect is applied as many times as there
    are contacts, and each time the removal is queued; the queue is a set,
    so the end of the step takes the body and the shape out once, without
    a fault.  Every contact is answered [False].  The handler for (1, 99)
    is still registered afterwards. *)
Theorem contacts_in_one_step self effect contacts w :
  contacts ≠ [] →
  locked (space w) = false →
  add_later (space w) = ∅ → remove_later (space w) = ∅ →
  registered self w →
  handlers (space w) !! (1, 99) = Some self →
  (∀ a d w0, run_on_trigger self a d w0 = (Return tt, effect a d w0)) →
  keeps_trigger self effect →
  let w1 := handled self effect contacts (set_space (set_locked true) w) in
  contacts_step 1 99 contacts w =
    (Return (map (λ _, Some false) contacts),
     mkWorld (heap w1) (space (deregistered self w)) (random_state w1)) ∧
  trigger_body self ∉ bodies (space (deregistered self w)) ∧
  trigger_shape self ∉ shapes (space (deregistered self w)) ∧
  locked (space (deregistered self w)) = false ∧
  add_later (space (deregistered self w)) = ∅ ∧
  remove_later (space (deregistered self w)) = ∅ ∧
  handlers (space (deregistered self w)) !! (1, 99) = Some self.
Proof.
  intros Hne Hl Ha Hr Hreg Hh Hcall Hframe w1.
  split; [apply contacts_step_eq; assumption|].
  unfold deregistered. cbn [space set_space set_shapes set_bodies bodies shapes
    locked add_later remove_later handlers].
  split; [apply not_elem_of_difference; right; apply elem_of_singleton; reflexivity|].
  split; [apply not_elem_of_difference; right; apply elem_of_singleton; reflexivity|].
  repeat split; assumption.
Qed.

(** X12.  Because the handler outlives the trigger, a contact reported for
    the pair (1, 99) in a later step runs the callback again and queues
    the removal again, for a body and a shape that are no longer in the
    space: the end of that step fails pymunk's membership assertion, with
    the space unlocked, the trigger's body and shape out of it and the
    handler still registered. *)
Theorem contacts_in_later_step self effect contacts later w :
  contacts ≠ [] → later ≠ [] →
  locked (space w) = false →
  add_later (space w) = ∅ → remove_later (space w) = ∅ →
  registered self w →
  handlers (space w) !! (1, 99) = Some self →
  (∀ a d w0, run_on_trigger self a d w0 = (Return tt, effect a d w0)) →
  keeps_trigger self effect →
  ∃ msg w',
    (contacts_step 1 99 contacts ;; contacts_step 1 99 later) w =
      (Raise (AssertionError msg), w') ∧
    locked (space w') = false ∧
    trigger_body self ∉ bodies (space w') ∧
    trigger_shape self ∉ shapes (space w') ∧
    handlers (space w') !! (1, 99) = Some self.
Proof.
  intros Hne Hne' Hl Ha Hr Hreg Hh Hcall Hframe.
  pose proof (contacts_step_eq self effect contacts w Hne Hl Ha Hr Hreg Hh
                Hcall Hframe) as E1.
  cbv zeta in E1.
  destruct (handled_heap self effect contacts
              (set_space (set_locked true) w) Hframe) as (Hhb & Hhs).
  cbn [heap set_space] in Hhb, Hhs.
  destruct Hreg as ((b & Eb) & (s & Es) & _).
  match type of E1 with _ = (_, ?W) => set (w1 := W) in * end.
  set (w2 := handled self effect later (set_space (set_locked true) w1)).
  assert (space w2 = space (removal_queued self (set_space (set_locked true) w1)))
    as Esp.
  { unfold w2. rewrite (handled_space self effect _ _ Hframe).
    destruct later; [contradiction|reflexivity]. }
  destruct (handled_heap self effect later
              (set_space (set_locked true) w1) Hframe) as (Hhb2 & Hhs2).
  fold w2 in Hhb2, Hhs2. cbn [heap set_space w1] in Hhb2, Hhs2.
  rewrite Hhb in Hhb2. rewrite Hhs in Hhs2.
  assert (trigger_body self ∉ bodies (space w2)) as Hb.
  { rewrite Esp. cbn. apply not_elem_of_difference. right.
    apply elem_of_singleton. reflexivity. }
  assert (trigger_shape self ∉ shapes (space w2)) as Hs.
  { rewrite Esp. cbn. apply not_elem_of_difference. right.
    apply elem_of_singleton. reflexivity. }
  assert (add_later (space w2) = ∅) as Ha2 by (rewrite Esp; exact Ha).
  assert (remove_later (space w2)
          = {[ trigger_body self ]} ∪ {[ trigger_shape self ]}) as Hr2.
  { rewrite Esp. cbn. rewrite Hr. apply pair_set. }
  assert (handlers (space w2) !! (1, 99) = Some self) as Hh2
    by (rewrite Esp; exact Hh).
  destruct (space_end_step_fails (trigger_body self) (trigger_shape self) b s w2
              Ha2 Hr2 ltac:(rewrite Hhb2; exact Eb) ltac:(rewrite Hhs2; exact Es)
              Hb Hs) as (msg & w' & E2 & _ & Hl' & Hb' & Hs' & Hh').
  exists msg, w'.
  split.
  - rewrite (bind_return _ _ _ _ _ E1).
    unfold contacts_step, space_begin_step.
    rewrite (bind_return (modify _) _ _ _ _ eq_refl).
    rewrite (bind_return _ _ _ _ _
               (map_each_fire self effect later
                  (set_space (set_locked true) w1) Hcall Hframe eq_refl Hh)).
    fold w2. rewrite (bind_raise _ _ _ _ _ E2). reflexivity.
  - split; [exact Hl'|]. split; [rewrite Hb'; exact Hb|].
    split; [rewrite Hs'; exact Hs|]. rewrite Hh'. exact Hh2.
Qed.

End SameStep.

(** ** Drawing a body that is not at a finite position *)

Lemma draw_rotated_raises body image surface w b img e :
  heap w !! body = Some (OBody b) →
  heap w !! image = Some (OSurface img) →
  int_failure (body_position b) = Some e →
  ∃ w', draw_rotated body image surface w = (Raise e, w') ∧
    (e = ValueError ∨ e = OverflowError) ∧
    (∀ j o, heap w !! j = Some o → heap w' !! j = Some o) ∧
    space w' = space w.
Proof.
  intros Eb Ei Hf.
  exists (set_heap <[new_id w :=
            OSurface (transform_rotate img (- math_degrees (body_angle b)))]> w).
  assert (∀ j o, heap w !! j = Some o →
            heap (set_heap <[new_id w := OSurface
                    (transform_rotate img (- math_degrees (body_angle b)))]> w) !! j
            = Some o) as Hfr.
  { intros j o Ej. cbn. rewrite lookup_insert_ne; [exact Ej|].
    intros <-. apply (new_id_fresh w). eapply lookup_used, Ej. }
  unfold draw_rotated.
  rewrite (bind_return _ _ _ _ _ (get_body_eq _ _ _ Eb)). cbv zeta.
  rewrite (bind_return _ _ _ _ _ (pygame_transform_rotate_eq _ _ _ _ Ei)).
  unfold int_failure in Hf.
  destruct (py_int (body_position b).1) as [cx|ex] eqn:Ex.
  - rewrite (bind_return (lift _) _ _ _ _ eq_refl).
    destruct (py_int (body_position b).2) as [cy|ey] eqn:Ey; [discriminate|].
    injection Hf as ->.
    split; [reflexivity|]. split; [eapply py_int_raise, Ey|].
    split; [exact Hfr|reflexivity].
  - injection Hf as ->.
    split; [reflexivity|]. split; [eapply py_int_raise, Ex|].
    split; [exact Hfr|reflexivity].
Qed.

(** X13.  [draw] of a ball or a projectile whose body position has a
    coordinate that is not finite raises what [int()] raises on it
    (ValueError for a NaN, OverflowError for an infinity; x is converted
    first).  Nothing is blitted: the target surface, the stored texture
    and every other object are as they were, and so is the space. *)
Theorem draw_refuses_non_finite (ball : Ball) (projectile : Projectile)
    surface w bb ib eb pb ip ep :
  heap w !! ball_body ball = Some (OBody bb) →
  heap w !! ball_image ball = Some (OSurface ib) →
  int_failure (body_position bb) = Some eb →
  heap w !! projectile_body projectile = Some (OBody pb) →
  heap w !! projectile_image projectile = Some (OSurface ip) →
  int_failure (body_position pb) = Some ep →
  (∃ w', Ball_draw ball surface w = (Raise eb, w') ∧
     (eb = ValueError ∨ eb = OverflowError) ∧
     (∀ j o, heap w !! j = Some o → heap w' !! j = Some o) ∧
     space w' = space w) ∧
  (∃ w', Projectile_draw projectile surface w = (Raise ep, w') ∧
     (ep = ValueError ∨ ep = OverflowError) ∧
     (∀ j o, heap w !! j = Some o → heap w' !! j = Some o) ∧
     space w' = space w).
Proof.
  intros Eb Ei Hb Ep Epi Hp. split.
  - apply (draw_rotated_raises _ _ _ _ _ _ _ Eb Ei Hb).
  - apply (draw_rotated_raises _ _ _ _ _ _ _ Ep Epi Hp).
Qed.

(** ** The further properties on the sample worlds *)

Lemma Ball_init_builds_witness :
  ∃ self w',
    Ball_init (Int 100) (Int 50) (Int 15) empty_world = (Return self, w') ∧
    bodies (space w') = {[ ball_body self ]} ∧
    shapes (space w') = {[ ball_shape self ]} ∧
    heap w' !! ball_image self = Some (OSurface (ball_texture (Int 15))).
Proof.
  assert (Ball_init (Int 100) (Int 50) (Int 15) empty_world
          = (Return (mkBall 1 2 (Int 15) 3),
             (Ball_init (Int 100) (Int 50) (Int 15) empty_world).2)) as E
    by (vm_compute; reflexivity).
  destruct (Ball_init_builds _ _ _ _ _ _ E) as (_ & Hs & _ & _ & Hi & _).
  eexists _, _. split; [exact E|]. rewrite Hs.
  split; [vm_compute; reflexivity|]. split; [vm_compute; reflexivity|exact Hi].
Defined.


Lemma Lever_init_builds_witness :
  ∃ self joint w',
    Lever_init (Int 200, Int 100) (Int 300) (Int 10) sample_load sample_effort
      (Float 10) sample_crates.2 = (Return self, w') ∧
    space w' = added [lever_body self]
                 (lever_shape self :: lever_holder_shapes self) [joint]
                 (space sample_crates.2) ∧
    heap w' !! crate_body sample_load
      = heap sample_crates.2 !! crate_body sample_load.
Proof.
  destruct sample_load_body as (lb & El & _).
  destruct sample_effort_body as (eb & Ee & _).
  destruct (Lever_init_builds (Int 200, Int 100) (Int 300) (Int 10)
              sample_load sample_effort (Float 10) sample_crates.2 lb eb El Ee)
    as (self & joint & w' & E & _ & Hs & _ & _ & _ & _ & Hl & _).
  exists self, joint, w'. split; [exact E|]. split; [exact Hs|].
  rewrite Hl, El. reflexivity.
Defined.

Lemma Lever_draw_snapshot_witness :
  ∃ self w1 w2 w3 s,
    Lever_init (Int 200, Int 100) (Int 300) (Int 10) sample_load sample_effort
      (Float 10) sample_lever_scene.2 = (Return self, w1) ∧
    (move_body (crate_body sample_load) (0, 0)%float ;;
     move_body (crate_body sample_effort) (500, 0)%float) w1 = (Return tt, w2) ∧
    Lever_draw self 5 w2 = (Return tt, w3) ∧
    heap w3 !! 5%nat = Some (OSurface s) ∧
    paint_count s = 10%nat.
Proof.
  edestruct (Lever_draw_snapshot (Int 200, Int 100) (Int 300) (Int 10)
               sample_load sample_effort (Float 10) sample_lever_scene.2
               (mkBody DYNAMIC 2 (cpMomentForBox (Int 2) (Int 40, Int 40))
                  (100, 100)%float 0 0)
               (mkBody DYNAMIC 1 (cpMomentForBox (Int 1) (Int 20, Int 20))
                  (300, 100)%float 0 0)
               5%nat (Surface_new (Int 800, Int 600) false))
    as (self & w1 & E & Hd).
  1-3: vm_compute; reflexivity.
  destruct (Hd (0, 0)%float (500, 0)%float) as (w2 & w3 & Em & Ed & Hs & Hp & _).
  exists self, w1, w2, w3. eexists.
  split; [exact E|]. split; [exact Em|]. split; [exact Ed|].
  split; [exact Hs|exact Hp].
Defined.

Lemma Crate_init_during_step_witness :
  ∃ self w1 w2,
    Crate_init (Int 100, Int 100) (Int 2) stepping_world = (Return self, w1) ∧
    crate_body self ∉ bodies (space w1) ∧
    space_end_step w1 = (Return tt, w2) ∧
    bodies (space w2) = {[ crate_body self ]} ∧
    shapes (space w2) = {[ crate_shape self ]} ∧
    locked (space w2) = false.
Proof.
  destruct (Crate_init_during_step (Int 100, Int 100) (Int 2) stepping_world
              eq_refl eq_refl eq_refl)
    as (self & w1 & w2 & E & _ & _ & Hb & _ & Ee & _ & Hs).
  exists self, w1, w2. split; [exact E|]. split; [exact Hb|]. split; [exact Ee|].
  rewrite Hs. cbn. split; [apply union_empty_r_L|].
  split; [apply union_empty_r_L|reflexivity].
Defined.

Lemma draw_refuses_non_finite_witness :
  (∃ w', Ball_draw sample_ball sample_screen lost_scene.2
           = (Raise ValueError, w') ∧
     heap w' !! sample_screen
       = Some (OSurface (Surface_new (Int 800, Int 600) false))) ∧
  (∃ w', Projectile_draw sample_projectile sample_screen lost_scene.2
           = (Raise OverflowError, w') ∧
     heap w' !! sample_screen
       = Some (OSurface (Surface_new (Int 800, Int 600) false))).
Proof.
  edestruct (draw_refuses_non_finite sample_ball sample_projectile sample_screen
               lost_scene.2
               (mkBody DYNAMIC 10 (cpMomentForCircle (Int 10) (Int 0) (Int 15))
                  (nan, 60.2)%float (math_pi / 2) 0)
               (ball_texture (Int 15)) ValueError
               (mkBody DYNAMIC 100 0 (50.7, infinity)%float (math_pi / 2) 0)
               (Surface_new (Float 37, Float 37) true) OverflowError)
    as ((w1 & E1 & _ & F1 & _) & (w2 & E2 & _ & F2 & _)).
  1-6: vm_compute; reflexivity.
  split.
  - exists w1. split; [exact E1|]. apply F1. vm_compute. reflexivity.
  - exists w2. split; [exact E2|]. apply F2. vm_compute. reflexivity.
Defined.

Lemma contacts_in_one_step_witness :
  contacts_step 1 99 [(sample_arbiter, sample_data); (mkArbiter 1, mkData 1)]
    (sample_trigger (Some (PyFunction 1))).2
  = (Return [Some false; Some false],
     deregistered sample_armed_trigger (sample_trigger (Some (PyFunction 1))).2).
Proof.
  apply (contacts_in_one_step sample_armed_trigger (λ _ _ w0, w0)).
  - discriminate.
  - vm_compute. reflexivity.
  - vm_compute. reflexivity.
  - vm_compute. reflexivity.
  - split; [|split; [|split]].
    + eexists. vm_compute. reflexivity.
    + eexists. vm_compute. reflexivity.
    + decide_tac.
    + decide_tac.
  - vm_compute. reflexivity.
  - intros a d w0. reflexivity.
  - intros a d w0. repeat split.
Defined.

Lemma contacts_in_later_step_witness :
  ∃ msg w',
    (contacts_step 1 99 [(sample_arbiter, sample_data)] ;;
     contacts_step 1 99 [(mkArbiter 1, mkData 1)])
      (sample_trigger (Some (PyFunction 1))).2
    = (Raise (AssertionError msg), w') ∧
    locked (space w') = false ∧
    1%nat ∉ bodies (space w') ∧ 2%nat ∉ shapes (space w').
Proof.
  destruct (contacts_in_later_step sample_armed_trigger (λ _ _ w0, w0)
              [(sample_arbiter, sample_data)] [(mkArbiter 1, mkData 1)]
              (sample_trigger (Some (PyFunction 1))).2)
    as (msg & w' & E & Hl & Hb & Hs & _).
  - discriminate.
  - discriminate.
  - vm_compute. reflexivity.
  - vm_compute. reflexivity.
  - vm_compute. reflexivity.
  - split; [|split; [|split]].
    + eexists. vm_compute. reflexivity.
    + eexists. vm_compute. reflexivity.
    + decide_tac.
    + decide_tac.
  - vm_compute. reflexivity.
  - intros a d w0. reflexivity.
  - intros a d w0. repeat split.
  - exists msg, w'. split; [exact E|]. split; [exact Hl|].
    split; [exact Hb|exact Hs].
Defined.

Lemma Trigger_init_remove_witness :
  ∃ self w',
    (self ← Trigger_init (Int 100, Int 200) Trigger_default_width
              Trigger_default_height (Some (PyFunction 1));
     Trigger_remove self ;; mret self) empty_world = (Return self, w') ∧
    creates [trigger_body self; trigger_shape self] empty_world w' ∧
    (∃ b s, heap w' !! trigger_body self = Some (OBody b) ∧
            heap w' !! trigger_shape self = Some (OShape s)) ∧
    bodies (space w') = bodies (space empty_world) ∧
    shapes (space w') = shapes (space empty_world) ∧
    constraints (space w') = constraints (space empty_world) ∧
    add_later (space w') = add_later (space empty_world) ∧
    remove_later (space w') = remove_later (space empty_world) ∧
    handlers (space w') = <[(1, 99) := self]> (handlers (space empty_world)).
Proof. apply Trigger_init_remove. reflexivity. Defined.
